(** * leadie: the Telegram front-end of the lead-generation API

    A shallow embedding of [src/index.js]: the credential collection
    ([Client], a Mongoose model), the API proxy ([makeApiRequest]), the
    handlers registered on the bot and the order in which Telegraf tries
    them.

    Conventions of the embedding.
    - A handler is a computation in the monad [M]: it threads a [World]
      (the credential collection and the chronological trace of the effects
      the handler attempted) and either returns or throws a JavaScript
      value ([Thrown]).
    - Everything outside the process (the backend reached through axios,
      the Telegram Bot API, the availability of MongoDB, the clock, the
      environment variable [API_BASE_URL], locale formatting) is an oracle
      of the record [Env]; the oracles see the trace so far, so a backend
      with state is a function of the requests already issued.
    - Backend payloads are JSON values ([JsVal]). [JNum n] is the Number
      nearest to the integer [n], as [JSON.parse] produces it; numbers with a
      fractional part are not represented. A string is the sequence of its
      UTF-8 bytes.
    - The texts of the built-in functions are those of V8, the engine of
      Node.js, on which the program runs.
    - [console.log] / [console.error] output is not part of the model. *)

From stdpp Require Import gmap strings list pretty.

Open Scope string_scope.
Open Scope Z_scope.
Set Warnings "-register-all".

(** ** JavaScript values *)

Inductive JsVal :=
| JUndefined
| JNull
| JBool (b : bool)
| JNum (n : Z)
| JStr (s : string)
| JArr (xs : list JsVal)
| JObj (fields : list (string * JsVal)).

(** Values a handler can throw: the rejection of an axios call (with
    [error.response?.data], [JUndefined] when there was no response), the
    built-in errors, a rejected store or Telegram call, or a plain value
    (what [makeApiRequest] throws). *)
Inductive Thrown :=
| ErrAxios (response_data : JsVal)
| ErrType
| ErrReference
| ErrMongo
| ErrTelegram
| ThrownVal (v : JsVal).

Inductive Res (A : Type) :=
| Ret (a : A)
| Throw (e : Thrown).
Arguments Ret {A} a.
Arguments Throw {A} e.

Definition nl : string := String (Ascii.ascii_of_nat 10%nat) "".

(** [!!v] is false for undefined, null, false, 0 and the empty string. *)
Definition truthy (v : JsVal) : bool :=
  match v with
  | JUndefined | JNull => false
  | JBool b => b
  | JNum n => negb (n =? 0)
  | JStr s => negb (String.eqb s "")
  | JArr _ | JObj _ => true
  end.

(** [a || b] *)
Definition js_or (a b : JsVal) : JsVal := if truthy a then a else b.

Fixpoint assoc (k : string) (fields : list (string * JsVal)) : JsVal :=
  match fields with
  | [] => JUndefined
  | (k', v) :: rest => if String.eqb k k' then v else assoc k rest
  end.

(** Number of UTF-16 code units of a UTF-8 encoded string ([s.length]):
    continuation bytes count for nothing, the lead byte of a four-byte
    sequence for two. *)
Fixpoint utf16_length (s : string) : Z :=
  match s with
  | EmptyString => 0
  | String c rest =>
      let n := Z.of_nat (Ascii.nat_of_ascii c) in
      (if (128 <=? n) && (n <? 192) then 0
       else if 240 <=? n then 2 else 1) + utf16_length rest
  end.

(** [v.k]: a TypeError on undefined and null; [length] of arrays and
    strings; a missing property is undefined. The handlers read fixed
    keys, none of which names a member inherited from a prototype. *)
Definition get_prop (v : JsVal) (k : string) : Res JsVal :=
  match v with
  | JUndefined | JNull => Throw ErrType
  | JObj fields => Ret (assoc k fields)
  | JArr xs => Ret (if String.eqb k "length" then JNum (Z.of_nat (length xs)) else JUndefined)
  | JStr s => Ret (if String.eqb k "length" then JNum (utf16_length s) else JUndefined)
  | JBool _ | JNum _ => Ret JUndefined
  end.

(** *** Numbers as text *)

Definition max_safe_integer : Z := 9007199254740991.

Definition safe_integer (n : Z) : bool :=
  (- max_safe_integer <=? n) && (n <=? max_safe_integer).

(** The double nearest to an integer [a ≥ 2^53], ties to even, as a
    53-bit mantissa [m] and an exponent [e]: the value is [m * 2^e]. *)
Definition round_to_double (a : Z) : Z * Z :=
  let e := Z.log2 a - 52 in
  let q := Z.shiftr a e in
  let r := a - Z.shiftl q e in
  let half := Z.shiftl 1 (e - 1) in
  let q' := if (half <? r) || ((r =? half) && Z.odd q) then q + 1 else q in
  if q' =? 2 ^ 53 then (2 ^ 52, e + 1) else (q', e).

(** The decimal integer with the fewest significant digits that still
    reads back as the double [v]; [lo2] and [hi2] are twice the bounds of
    the interval of the reals that round to [v], [closed] tells whether
    the bounds belong to it. Tried from [fuel] dropped digits down. *)
Fixpoint shortest_decimal (fuel : nat) (v lo2 hi2 : Z) (closed : bool) : Z :=
  match fuel with
  | O => v
  | S fuel' =>
      let p := 10 ^ Z.of_nat fuel in
      let down := v / p * p in
      let up := down + p in
      let inside c :=
        if closed then (lo2 <=? 2 * c) && (2 * c <=? hi2)
        else (lo2 <? 2 * c) && (2 * c <? hi2) in
      match inside down, inside up with
      | true, true =>
          if v - down <? up - v then down
          else if up - v <? v - down then up
          else if Z.even (down / p) then down else up
      | true, false => down
      | false, true => up
      | false, false => shortest_decimal fuel' v lo2 hi2 closed
      end
  end.

Fixpoint strip_zeros (s : string) : string :=
  match s with
  | EmptyString => EmptyString
  | String c rest =>
      match strip_zeros rest with
      | EmptyString =>
          if Ascii.eqb c (Ascii.ascii_of_nat 48%nat) then EmptyString
          else String c EmptyString
      | r => String c r
      end
  end.

(** [String(x)] for the Number [x] nearest to the integer [n]: the digits
    of [n] itself in the safe range; beyond it the shortest digits that
    identify the double, in exponent form from [1e21]. *)
Definition number_to_string (n : Z) : string :=
  if safe_integer n then pretty n
  else
    let sign := if n <? 0 then "-" else "" in
    let '(m, e) := round_to_double (Z.abs n) in
    if 971 <? e then sign +:+ "Infinity"
    else
      let v := m * 2 ^ e in
      let hi2 := 2 * v + 2 ^ e in
      let lo2 := if m =? 2 ^ 52 then 2 * v - 2 ^ (e - 1) else 2 * v - 2 ^ e in
      let c := shortest_decimal (Z.to_nat (Z.log2 v / 3 + 1)) v lo2 hi2 (Z.even m) in
      let digits := pretty c in
      let n_digits := Z.of_nat (String.length digits) in
      if n_digits <=? 21 then sign +:+ digits
      else
        match strip_zeros digits with
        | String d EmptyString => sign +:+ String d "e+" +:+ pretty (n_digits - 1)
        | String d more => sign +:+ String d ("." +:+ more) +:+ "e+" +:+ pretty (n_digits - 1)
        | EmptyString => sign +:+ digits
        end.

(** *** Conversion to a string *)

Definition has_key (k : string) (fields : list (string * JsVal)) : bool :=
  existsb (λ f, String.eqb k (fst f)) fields.

(** [String(v)] is a TypeError exactly when a [toString] is found that is
    not a function: a parsed object that has a key [toString] of its own
    (the inherited [valueOf] then returns the object, which is no
    primitive), or an array that holds such an object. *)
Fixpoint unprintable (v : JsVal) : bool :=
  match v with
  | JObj fields => has_key "toString" fields
  | JArr xs =>
      (fix any (l : list JsVal) : bool :=
         match l with
         | [] => false
         | x :: rest => unprintable x || any rest
         end) xs
  | _ => false
  end.

(** [String(v)], as used by template literals, for a [v] that is not
    [unprintable]. *)
Fixpoint to_str (v : JsVal) : string :=
  match v with
  | JUndefined => "undefined"
  | JNull => "null"
  | JBool true => "true"
  | JBool false => "false"
  | JNum n => number_to_string n
  | JStr s => s
  | JArr xs =>
      (fix join (l : list JsVal) : string :=
         match l with
         | [] => ""
         | x :: rest =>
             let e := match x with JUndefined | JNull => "" | _ => to_str x end in
             match rest with
             | [] => e
             | _ => e +:+ "," +:+ join rest
             end
         end) xs
  | JObj _ => "[object Object]"
  end.

(** [String(v)] *)
Definition to_string (v : JsVal) : Res string :=
  if unprintable v then Throw ErrType else Ret (to_str v).

(** [v === 0] *)
Definition is_zero (v : JsVal) : bool :=
  match v with JNum n => n =? 0 | _ => false end.

(** [error.response?.data] and [error.error] on a caught value. *)
Definition response_data (e : Thrown) : JsVal :=
  match e with
  | ErrAxios d => d
  | ThrownVal (JObj fields) =>
      match assoc "response" fields with
      | JObj fields' => assoc "data" fields'
      | _ => JUndefined
      end
  | _ => JUndefined
  end.

Definition error_prop (e : Thrown) : JsVal :=
  match e with
  | ThrownVal (JObj fields) => assoc "error" fields
  | _ => JUndefined
  end.

(** [s.split(' ')] *)
Fixpoint split_space_go (cur : string) (s : string) : list string :=
  match s with
  | EmptyString => [String.rev cur]
  | String c rest =>
      if Ascii.eqb c (Ascii.ascii_of_nat 32%nat) then String.rev cur :: split_space_go "" rest
      else split_space_go (String c cur) rest
  end.

Definition split_space (s : string) : list string := split_space_go "" s.

(** The lead byte of a four-byte sequence with the two continuation bytes
    that follow it determine the high surrogate of the pair that stands for
    the character in UTF-16; an unpaired surrogate is written in the same
    three-byte form as the characters around it. *)
Definition high_surrogate (b1 b2 b3 : Z) : string :=
  let hs := 55296 + (Z.shiftl (Z.land b1 7) 8 + Z.shiftl (Z.land b2 63) 2
                     + Z.shiftr (Z.land b3 63) 4 - 64) in
  let byte (z : Z) := Ascii.ascii_of_nat (Z.to_nat z) in
  String (byte 237)
    (String (byte (128 + Z.land (Z.shiftr hs 6) 63))
       (String (byte (128 + Z.land hs 63)) "")).

Definition byte_at (k : nat) (s : string) : Z :=
  match String.get k s with
  | Some c => Z.of_nat (Ascii.nat_of_ascii c)
  | None => 0
  end.

(** [s.substring(0, n)]: the first [n] UTF-16 code units of [s]. A
    character of up to three bytes is one unit, one of four bytes is two;
    cutting between the two leaves the high surrogate alone. *)
Fixpoint substring0 (n : nat) (s : string) : string :=
  match s with
  | EmptyString => EmptyString
  | String c rest =>
      let b := Z.of_nat (Ascii.nat_of_ascii c) in
      if (128 <=? b) && (b <? 192) then String c (substring0 n rest)
      else
        match n with
        | O => EmptyString
        | S n' =>
            if b <? 240 then String c (substring0 n' rest)
            else
              match n' with
              | O => high_surrogate b (byte_at 0 rest) (byte_at 1 rest)
              | S n'' => String c (substring0 n'' rest)
              end
        end
  end.

(** ** The credential collection, requests and Telegram calls *)

(** The documents of [clientSchema]. Dates are timestamps. *)
Record Client := mkClient {
  telegramId : string;
  apiToken : string;
  baseUrl : string;
  createdAt : Z;
  lastUsed : Z
}.

(** The request object handed to axios: a JavaScript object, as the list
    of the keys the code sets. [makeApiRequest] sets [method], [url],
    [headers] and, for a truthy body, [data]; the verification request of
    [/settoken] sets [method], [url] and [headers]. axios takes its default
    for a key that is absent; for [timeout] the default is 0, no limit. *)
Definition AxiosConfig : Type := list (string * JsVal).

Definition cfg_method (cfg : AxiosConfig) : JsVal := assoc "method" cfg.
Definition cfg_url (cfg : AxiosConfig) : JsVal := assoc "url" cfg.
Definition cfg_timeout (cfg : AxiosConfig) : JsVal := assoc "timeout" cfg.

Inductive AxiosResult :=
| AxiosOk (response_body : JsVal)
| AxiosFail (response_data : JsVal).

Record Button := mkButton { label : string; callback_data : string }.

Inductive Markup :=
| ReplyKeyboard (rows : list (list string))
| InlineKeyboard (rows : list (list Button)).

Inductive TgCall :=
| Reply (text : string) (extra : option Markup)
| EditMessageText (text : string) (extra : option Markup)
| EditMessageTextAt (chat_id message_id : Z) (text : string)
| AnswerCbQuery (text : option string) (show_alert : bool)
| SetMessageReactionAt (chat_id message_id : Z) (emoji : string)
| DeleteMessage.

Inductive MongoOp :=
| FindOne (id : string)
| UpdateLastUsed (id : string) (date : Z)
| UpdateBaseUrl (id : string) (url : string)
| Upsert (id token url : string) (date : Z)
| DeleteOne (id : string).

Inductive Effect :=
| EAxios (cfg : AxiosConfig)
| ETelegram (c : TgCall)
| EMongo (op : MongoOp)
| ESetTimeout (delay : Z) (c : TgCall).

Record World := mkWorld {
  db : gmap string Client;
  trace : list Effect
}.

(** The outside of the process. *)
Record Env := mkEnv {
  axios : list Effect → AxiosConfig → AxiosResult;
  telegram : list Effect → TgCall → option Z;  (* message id, None: rejected *)
  mongo_up : list Effect → bool;
  clock : list Effect → Z;
  API_BASE_URL : option string;
  numLocale : JsVal → string;   (* v.toLocaleString() *)
  dateLocale : JsVal → string   (* new Date(v).toLocaleString() *)
}.

(** The incoming update as the handlers read it. *)
Record Ctx := mkCtx {
  from_id : Z;
  first_name : string;
  chat_id : Z;
  message_text : string;
  cb_message_id : Z;
  ctx_match : list string
}.

(** ** The handler monad *)

Definition M (A : Type) : Type := World → Res A * World.

Global Instance M_ret : MRet M := λ A a w, (Ret a, w).
Global Instance M_bind : MBind M := λ A B f m w,
  match m w with
  | (Ret a, w') => f a w'
  | (Throw e, w') => (Throw e, w')
  end.

Definition throw {A} (e : Thrown) : M A := λ w, (Throw e, w).

Definition lift {A} (r : Res A) : M A := λ w, (r, w).

(** [try { body } catch (error) { handler }] *)
Definition try_catch {A} (body : M A) (handler : Thrown → M A) : M A := λ w,
  match body w with
  | (Ret a, w') => (Ret a, w')
  | (Throw e, w') => handler e w'
  end.

Definition emit (e : Effect) : M unit := λ w,
  (Ret tt, {| db := db w; trace := trace w ++ [e] |}).

Definition get_db : M (gmap string Client) := λ w, (Ret (db w), w).

(** [v.k] inside a handler. *)
Definition prop (v : JsVal) (k : string) : M JsVal := lift (get_prop v k).

(** [`${v}`] inside a handler. *)
Definition str (v : JsVal) : M string := lift (to_string v).

(** [xs.map(f)] for a callback that can throw; a TypeError when [xs] is
    not an array. *)
Fixpoint mapM {A} (f : JsVal → M A) (xs : list JsVal) : M (list A) :=
  match xs with
  | [] => mret []
  | x :: rest => y ← f x; ys ← mapM f rest; mret (y :: ys)
  end.

Definition js_map {A} (f : JsVal → M A) (v : JsVal) : M (list A) :=
  match v with
  | JArr xs => mapM f xs
  | _ => throw ErrType
  end.

(** ** Static screens *)

Definition mainMenu : Markup :=
  ReplyKeyboard
    [ ["📊 Jobs"; "🎯 Targets"];
      ["👥 Leads"; "📈 Content Analysis"];
      ["📉 Statistics"; "⚙️ Settings"];
      ["❌ Cancel"] ].

Definition not_onboarded : string := "❌ Please set your token first: /settoken".

Definition jobs_menu : Markup :=
  InlineKeyboard
    [ [mkButton "📋 List All Jobs" "jobs_list"];
      [mkButton "➕ Create New Job" "jobs_create"];
      [mkButton "🔙 Back to Menu" "back_menu"] ].

Definition targets_menu : Markup :=
  InlineKeyboard
    [ [mkButton "📋 List Targets" "targets_list"];
      [mkButton "➕ Create Target" "targets_create"];
      [mkButton "🔙 Back" "back_menu"] ].

Definition leads_menu : Markup :=
  InlineKeyboard
    [ [mkButton "📋 All Leads" "leads_all"];
      [mkButton "✅ Outreach Ready" "leads_ready"];
      [mkButton "🔙 Back" "back_menu"] ].

Definition localhost_base_url : string := "http://localhost:5000/api/v1".

(** The methods every object literal inherits from [Object.prototype]. *)
Definition object_prototype_methods : list string :=
  [ "__defineGetter__"; "__defineSetter__"; "hasOwnProperty"; "__lookupGetter__";
    "__lookupSetter__"; "isPrototypeOf"; "propertyIsEnumerable"; "toString";
    "valueOf"; "toLocaleString" ].

(** [{queued: .., running: .., finished: .., failed: ..}[key] || '❓'], as
    the template literals print it. The table is an object literal, so a
    key that names an inherited member finds that member, which is truthy
    and is printed in place of the emoji: the text of the function, and
    [[object Object]] for the prototype behind [__proto__]. *)
Definition status_mark (key : string) : string :=
  if String.eqb key "queued" then "⏳"
  else if String.eqb key "running" then "🏃"
  else if String.eqb key "finished" then "✅"
  else if String.eqb key "failed" then "❌"
  else if String.eqb key "constructor" then "function Object() { [native code] }"
  else if existsb (String.eqb key) object_prototype_methods
       then "function " +:+ key +:+ "() { [native code] }"
  else if String.eqb key "__proto__" then "[object Object]"
  else "❓".

(** The lookup with [job.status] as key: the key is [String(job.status)]. *)
Definition statusEmoji (status : JsVal) : Res string :=
  match to_string status with
  | Ret key => Ret (status_mark key)
  | Throw e => Throw e
  end.

(** [ctx.match[1]] *)
Definition match1 (ctx : Ctx) : JsVal :=
  match ctx_match ctx with
  | _ :: g :: _ => JStr g
  | _ => JUndefined
  end.

(** [ctx.from.id.toString()] *)
Definition identity (ctx : Ctx) : string := number_to_string (from_id ctx).

Section Bot.

Variable E : Env.

(** *** Calls that leave the process *)

Definition tg (c : TgCall) : M Z := λ w,
  let w' := {| db := db w; trace := trace w ++ [ETelegram c] |} in
  match telegram E (trace w) c with
  | Some id => (Ret id, w')
  | None => (Throw ErrTelegram, w')
  end.

Definition tg_ (c : TgCall) : M unit := tg c;; mret tt.

Definition axios_call (cfg : AxiosConfig) : M JsVal := λ w,
  let w' := {| db := db w; trace := trace w ++ [EAxios cfg] |} in
  match axios E (trace w) cfg with
  | AxiosOk body => (Ret body, w')
  | AxiosFail d => (Throw (ErrAxios d), w')
  end.

(** [new Date()] *)
Definition new_Date : M Z := λ w, (Ret (clock E (trace w)), w).

(** The effect of a store operation on the collection. [Upsert] is
    [findOneAndUpdate] with [upsert: true]: an existing document keeps its
    [createdAt], a new one takes the schema default. *)
Definition apply_op (op : MongoOp) (d : gmap string Client) : gmap string Client :=
  match op with
  | FindOne _ => d
  | UpdateLastUsed id t =>
      alter (λ c, mkClient (telegramId c) (apiToken c) (baseUrl c) (createdAt c) t) id d
  | UpdateBaseUrl id u =>
      alter (λ c, mkClient (telegramId c) (apiToken c) u (createdAt c) (lastUsed c)) id d
  | Upsert id tok u t =>
      <[id := mkClient id tok u (from_option createdAt t (d !! id)) t]> d
  | DeleteOne id => delete id d
  end.

Definition mongo (op : MongoOp) : M unit := λ w,
  if mongo_up E (trace w)
  then (Ret tt, {| db := apply_op op (db w); trace := trace w ++ [EMongo op] |})
  else (Throw ErrMongo, {| db := db w; trace := trace w ++ [EMongo op] |}).

(** *** Helper functions *)

(** A Telegraf context has no method [setMessageReaction] (reactions are
    sent with [ctx.react] or [ctx.telegram.setMessageReaction]): the call
    [ctx.setMessageReaction(emoji)] is a TypeError, which the [catch]
    swallows. No request is made to Telegram. *)
Definition reactToMessage (ctx : Ctx) (emoji : string) : M unit :=
  try_catch (throw ErrType) (λ _, mret tt).

Definition getClient (id : string) : M (option Client) :=
  mongo (FindOne id);; d ← get_db; mret (d !! id).

Definition generic_api_error : JsVal := JObj [("error", JStr "API request failed")].

(** The request object of [makeApiRequest]. *)
Definition request_config (c : Client) (endpoint method : string) (data : JsVal)
  : AxiosConfig :=
  ([ ("method", JStr method);
      ("url", JStr (baseUrl c +:+ endpoint));
      ("headers", JObj [("Authorization", JStr ("Bearer " +:+ apiToken c));
                        ("Content-Type", JStr "application/json")]) ]
   ++ (if truthy data then [("data", data)] else []))%list.

(** [makeApiRequest(client, endpoint, method, data)]. [client] is what
    [getClient] returned; reading [client.baseUrl] of [null] is a TypeError
    raised inside the [try]. *)
Definition makeApiRequest (client : option Client) (endpoint method : string)
    (data : JsVal) : M JsVal :=
  try_catch
    (match client with
     | None => throw ErrType
     | Some c =>
         response ← axios_call (request_config c endpoint method data);
         now ← new_Date;
         mongo (UpdateLastUsed (telegramId c) now);;
         mret response
     end)
    (λ error, throw (ThrownVal (js_or (response_data error) generic_api_error))).

(** [`❌ Error: ${error.error || fallback}`] *)
Definition error_text (error : Thrown) (fallback : string) : Res string :=
  match to_string (js_or (error_prop error) (JStr fallback)) with
  | Ret text => Ret ("❌ Error: " +:+ text)
  | Throw e => Throw e
  end.

(** [`❌ ${error.error}`] *)
Definition alert_text (error : Thrown) : Res string :=
  match to_string (error_prop error) with
  | Ret text => Ret ("❌ " +:+ text)
  | Throw e => Throw e
  end.

(** [new Date(v).toLocaleString()]: the conversion of [v] to a primitive
    fails where [String(v)] does. *)
Definition date_text (v : JsVal) : Res string :=
  if unprintable v then Throw ErrType else Ret (dateLocale E v).

(** [v.toLocaleString()] for a [v] other than undefined and null, [None]
    when the call is a TypeError: the locale's rendering of a number, the
    string itself, the elements of an array joined by commas. On an object
    the inherited method calls [toString]; a key [toLocaleString] or
    [toString] of the object's own is not a function. *)
Fixpoint to_locale_string (v : JsVal) : option string :=
  match v with
  | JUndefined | JNull => None
  | JNum _ => Some (numLocale E v)
  | JBool _ | JStr _ => Some (to_str v)
  | JArr xs =>
      (fix join (l : list JsVal) : option string :=
         match l with
         | [] => Some ""
         | x :: rest =>
             match match x with
                   | JUndefined | JNull => Some ""
                   | _ => to_locale_string x
                   end with
             | None => None
             | Some first =>
                 match rest with
                 | [] => Some first
                 | _ => match join rest with
                        | None => None
                        | Some more => Some (first +:+ "," +:+ more)
                        end
                 end
             end
         end) xs
  | JObj fields =>
      if has_key "toLocaleString" fields || has_key "toString" fields
      then None
      else Some "[object Object]"
  end.

(** [v?.toLocaleString() || 0] *)
Definition locale_or_0 (v : JsVal) : Res JsVal :=
  match v with
  | JUndefined | JNull => Ret (JNum 0)
  | _ => match to_locale_string v with
         | Some text => Ret (js_or (JStr text) (JNum 0))
         | None => Throw ErrType
         end
  end.

(** A handler whose [try] block may leave by [return call]: the returned
    promise is not awaited inside the [try], so its rejection escapes the
    [catch]. The body yields the call to return, if any. *)
Definition try_returning (body : M (option TgCall)) (handler : Thrown → M unit)
  : M unit :=
  early ← try_catch body (λ error, handler error;; mret None);
  match early with
  | Some c => tg_ c
  | None => mret tt
  end.

(** *** Commands *)

Definition start (ctx : Ctx) : M unit :=
  reactToMessage ctx "👋";;
  client ← getClient (identity ctx);
  match client with
  | None =>
      tg_ (Reply ("👋 Welcome to the API Management Bot!" +:+ nl +:+ nl +:+
                  "🔑 To get started, please set your API token using:" +:+ nl +:+
                  "/settoken YOUR_API_TOKEN" +:+ nl +:+ nl +:+
                  "📝 Example:" +:+ nl +:+
                  "/settoken abc123def456") None)
  | Some c =>
      tg_ (Reply ("✅ Welcome back!" +:+ nl +:+ nl +:+
                  "🆔 Your ID: " +:+ first_name ctx +:+ nl +:+
                  "📅 Last used: " +:+ dateLocale E (JNum (lastUsed c)) +:+ nl +:+ nl +:+
                  "Choose an option below:") (Some mainMenu))
  end.

(** [process.env.API_BASE_URL || 'http://localhost:5000/api/v1'] *)
Definition default_base_url : string :=
  match API_BASE_URL E with
  | Some u => if String.eqb u "" then localhost_base_url else u
  | None => localhost_base_url
  end.

Definition testConfig (token : string) : AxiosConfig :=
  [ ("method", JStr "GET");
    ("url", JStr (default_base_url +:+ "/stats"));
    ("headers", JObj [("Authorization", JStr ("Bearer " +:+ token))]) ].

Definition settoken (ctx : Ctx) : M unit :=
  reactToMessage ctx "🔑";;
  match tail (split_space (message_text ctx)) with
  | [] => tg_ (Reply ("❌ Please provide your API token:" +:+ nl +:+ "/settoken YOUR_TOKEN") None)
  | token :: _ =>
      loadingMsg ← tg (Reply "👁️ Verifying token..." None);
      try_catch
        (axios_call (testConfig token);;
         now ← new_Date;
         mongo (Upsert (identity ctx) token default_base_url now);;
         tg_ (EditMessageTextAt (chat_id ctx) loadingMsg
                ("✅ Token verified and saved successfully!" +:+ nl +:+ nl +:+
                 "Use /start to access the menu."));;
         reactToMessage ctx "✅")
        (λ _,
         tg_ (EditMessageTextAt (chat_id ctx) loadingMsg
                ("❌ Invalid token or API is unreachable." +:+ nl +:+ nl +:+
                 "Please check your token and try again."));;
         reactToMessage ctx "❌")
  end.

Definition seturl (ctx : Ctx) : M unit :=
  match tail (split_space (message_text ctx)) with
  | [] => tg_ (Reply ("❌ Please provide the base URL:" +:+ nl +:+
                      "/seturl https://your-domain.com/api/v1") None)
  | url :: _ =>
      client ← getClient (identity ctx);
      match client with
      | None => tg_ (Reply "❌ Please set your API token first using /settoken" None)
      | Some _ =>
          mongo (UpdateBaseUrl (identity ctx) url);;
          tg_ (Reply "✅ Base URL updated successfully!" None)
      end
  end.

(** *** Jobs *)

(** The menu handlers registered with [bot.hears] differ only in their
    screen. *)
Definition menu_hears (title : string) (keyboard : Markup) (ctx : Ctx) : M unit :=
  reactToMessage ctx "👀";;
  client ← getClient (identity ctx);
  match client with
  | None => tg_ (Reply not_onboarded None)
  | Some _ => tg_ (Reply title (Some keyboard))
  end.

Definition jobs_title : string :=
  "📊 Job Management" +:+ nl +:+ nl +:+ "Choose an action:".

Definition hears_jobs : Ctx → M unit := menu_hears jobs_title jobs_menu.

Definition job_button (job : JsVal) : M (list Button) :=
  status ← prop job "status";
  emoji ← lift (statusEmoji status);
  name ← prop job "name";
  name_text ← str name;
  id ← prop job "id";
  id_text ← str id;
  mret [mkButton (emoji +:+ " " +:+ name_text) ("job_" +:+ id_text)].

Definition jobs_list (ctx : Ctx) : M unit :=
  tg_ (AnswerCbQuery (Some "👁️ Loading jobs...") false);;
  client ← getClient (identity ctx);
  try_returning
    (data ← makeApiRequest client "/jobs?page=1&per_page=10" "GET" JNull;
     items ← prop data "data";
     len ← prop items "length";
     if is_zero len
     then mret (Some (EditMessageText
                        ("📭 No jobs found." +:+ nl +:+ nl +:+ "Create your first job!")
                        None))
     else
       rows ← js_map job_button items;
       let buttons := (rows ++ [[mkButton "🔙 Back" "back_jobs"]])%list in
       pagination ← prop data "pagination";
       totalPages ← prop pagination "pages";
       currentPage ← prop pagination "page";
       page_text ← str currentPage;
       pages_text ← str totalPages;
       total ← prop pagination "total";
       total_text ← str total;
       tg_ (EditMessageText
              ("📊 Jobs List (Page " +:+ page_text +:+ "/" +:+ pages_text +:+ ")" +:+ nl +:+
               "📦 Total: " +:+ total_text +:+ nl +:+ nl +:+
               "Select a job to view details:")
              (Some (InlineKeyboard buttons)));;
       mret None)
    (λ error,
     text ← lift (error_text error "Failed to fetch jobs");
     tg_ (EditMessageText text None)).

Definition job_details (ctx : Ctx) : M unit :=
  tg_ (AnswerCbQuery (Some "👁️ Loading job details...") false);;
  client ← getClient (identity ctx);
  let jobId := to_str (match1 ctx) in
  try_catch
    (data ← makeApiRequest client ("/jobs/" +:+ jobId) "GET" JNull;
     job ← prop data "data";
     status ← prop job "status";
     emoji ← lift (statusEmoji status);
     id ← prop job "id";
     id_text ← str id;
     name ← prop job "name";
     name_text ← str name;
     status_text ← str status;
     job_type ← prop job "job_type";
     type_text ← str job_type;
     users_stored ← prop job "users_stored";
     users_text ← str (js_or users_stored (JNum 0));
     created_at ← prop job "created_at";
     created_text ← lift (date_text created_at);
     let message :=
       "📊 Job Details" +:+ nl +:+ nl +:+
       "🆔 ID: " +:+ id_text +:+ nl +:+
       "📝 Name: " +:+ name_text +:+ nl +:+
       emoji +:+ " Status: " +:+ status_text +:+ nl +:+
       "🔧 Type: " +:+ type_text +:+ nl +:+
       "👥 Users Stored: " +:+ users_text +:+ nl +:+
       "📅 Created: " +:+ created_text in
     let keyboard := InlineKeyboard
       [ [mkButton "▶️ Run Job" ("run_job_" +:+ jobId)];
         [mkButton "🗑️ Delete" ("delete_job_" +:+ jobId)];
         [mkButton "🔙 Back to List" "jobs_list"] ] in
     tg_ (EditMessageText message (Some keyboard)))
    (λ error,
     text ← lift (error_text error "Failed to fetch job");
     tg_ (EditMessageText text None)).

(** No scene middleware is installed, so [ctx.scene] is undefined and
    [ctx.scene.reenter()] is a TypeError, raised inside the [try]. *)
Definition run_job (ctx : Ctx) : M unit :=
  tg_ (AnswerCbQuery (Some "👁️ Starting job...") false);;
  client ← getClient (identity ctx);
  let jobId := to_str (match1 ctx) in
  try_catch
    (makeApiRequest client ("/jobs/" +:+ jobId +:+ "/run") "POST" JNull;;
     tg_ (AnswerCbQuery (Some "✅ Job started!") true);;
     try_catch
       (tg_ (SetMessageReactionAt (chat_id ctx) (cb_message_id ctx) "🚀"))
       (λ _, mret tt);;
     throw ErrType)
    (λ error,
     text ← lift (alert_text error);
     tg_ (AnswerCbQuery (Some text) true)).

Definition delete_job_keyboard (ctx : Ctx) : Markup :=
  InlineKeyboard
    [ [ mkButton "✅ Yes, Delete" ("confirm_delete_job_" +:+ to_str (match1 ctx));
        mkButton "❌ Cancel" "jobs_list" ] ].

Definition delete_job (ctx : Ctx) : M unit :=
  tg_ (EditMessageText
         ("⚠️ Are you sure you want to delete this job?" +:+ nl +:+ nl +:+
          "This action cannot be undone.")
         (Some (delete_job_keyboard ctx))).

Definition job_deleted_text : string := "✅ Job deleted successfully!".

Definition confirm_delete_job (ctx : Ctx) : M unit :=
  tg_ (AnswerCbQuery (Some "👁️ Deleting job...") false);;
  client ← getClient (identity ctx);
  let jobId := to_str (match1 ctx) in
  try_catch
    (makeApiRequest client ("/jobs/" +:+ jobId) "DELETE" JNull;;
     tg_ (AnswerCbQuery (Some "✅ Job deleted!") true);;
     try_catch
       (tg_ (SetMessageReactionAt (chat_id ctx) (cb_message_id ctx) "🗑"))
       (λ _, mret tt);;
     tg_ (EditMessageText job_deleted_text None);;
     emit (ESetTimeout 1000 (Reply "Choose an option:" (Some mainMenu))))
    (λ error,
     text ← lift (alert_text error);
     tg_ (AnswerCbQuery (Some text) true)).

(** *** Targets *)

Definition targets_title : string :=
  "🎯 Target Management" +:+ nl +:+ nl +:+ "Choose an action:".

Definition hears_targets : Ctx → M unit := menu_hears targets_title targets_menu.

Definition target_button (target : JsVal) : M (list Button) :=
  identifier ← prop target "identifier";
  identifier_text ← str identifier;
  id ← prop target "id";
  id_text ← str id;
  mret [mkButton ("🎯 " +:+ identifier_text) ("target_" +:+ id_text)].

Definition targets_list (ctx : Ctx) : M unit :=
  tg_ (AnswerCbQuery (Some "👁️ Loading targets...") false);;
  client ← getClient (identity ctx);
  try_returning
    (data ← makeApiRequest client "/targets?page=1&per_page=10" "GET" JNull;
     items ← prop data "data";
     len ← prop items "length";
     if is_zero len
     then mret (Some (EditMessageText "📭 No targets found." None))
     else
       rows ← js_map target_button items;
       let buttons := (rows ++ [[mkButton "🔙 Back" "back_targets"]])%list in
       pagination ← prop data "pagination";
       page ← prop pagination "page";
       page_text ← str page;
       pages ← prop pagination "pages";
       pages_text ← str pages;
       tg_ (EditMessageText
              ("🎯 Targets (Page " +:+ page_text +:+ "/" +:+ pages_text +:+ ")" +:+
               nl +:+ nl +:+ "Select a target:")
              (Some (InlineKeyboard buttons)));;
       mret None)
    (λ error,
     text ← lift (error_text error "Failed to fetch targets");
     tg_ (EditMessageText text None)).

(** *** Leads *)

Definition leads_title : string :=
  "👥 Leads Management" +:+ nl +:+ nl +:+ "Choose an option:".

Definition hears_leads : Ctx → M unit := menu_hears leads_title leads_menu.

Definition lead_button (lead : JsVal) : M (list Button) :=
  username ← prop lead "username";
  username_text ← str username;
  followers ← prop lead "followers";
  followers_text ← str followers;
  id ← prop lead "id";
  id_text ← str id;
  mret [mkButton ("👤 " +:+ username_text +:+ " (" +:+ followers_text +:+ " followers)")
                 ("lead_" +:+ id_text)].

Definition leads_query (type : JsVal) : string :=
  match type with
  | JStr t => if String.eqb t "ready" then "?outreach_ready=true&page=1" else "?page=1"
  | _ => "?page=1"
  end.

Definition leads_list (ctx : Ctx) : M unit :=
  tg_ (AnswerCbQuery (Some "👁️ Loading leads...") false);;
  client ← getClient (identity ctx);
  try_returning
    (data ← makeApiRequest client ("/leads" +:+ leads_query (match1 ctx)) "GET" JNull;
     items ← prop data "data";
     len ← prop items "length";
     if is_zero len
     then mret (Some (EditMessageText "📭 No leads found." None))
     else
       rows ← js_map lead_button items;
       let buttons := (rows ++ [[mkButton "🔙 Back" "back_leads"]])%list in
       pagination ← prop data "pagination";
       page ← prop pagination "page";
       page_text ← str page;
       pages ← prop pagination "pages";
       pages_text ← str pages;
       total ← prop pagination "total";
       total_text ← str total;
       tg_ (EditMessageText
              ("👥 Leads (Page " +:+ page_text +:+ "/" +:+ pages_text +:+ ")" +:+ nl +:+
               "Total: " +:+ total_text +:+ nl +:+ nl +:+
               "Select a lead:")
              (Some (InlineKeyboard buttons)));;
       mret None)
    (λ error,
     text ← lift (error_text error "Failed to fetch leads");
     tg_ (EditMessageText text None)).

(** The keyboard of the detail screen reads a variable [type] that is not
    declared in this handler: once the message text is built the [try]
    block ends in a ReferenceError. *)
Definition lead_details (ctx : Ctx) : M unit :=
  tg_ (AnswerCbQuery (Some "👁️ Loading lead details...") false);;
  client ← getClient (identity ctx);
  let leadId := to_str (match1 ctx) in
  try_catch
    (data ← makeApiRequest client ("/leads/" +:+ leadId) "GET" JNull;
     lead ← prop data "data";
     username ← prop lead "username";
     str username;;
     full_name ← prop lead "full_name";
     str (js_or full_name (JStr "N/A"));;
     followers ← prop lead "followers";
     followers_shown ← lift (locale_or_0 followers);
     str followers_shown;;
     emails ← prop lead "emails";
     str (js_or emails (JStr "Not available"));;
     platform ← prop lead "platform";
     str platform;;
     throw ErrReference)
    (λ error,
     text ← lift (error_text error "Failed to fetch lead");
     tg_ (EditMessageText text None)).

(** *** Statistics and content analysis *)

Definition stats_message (stats : JsVal) : M string :=
  total_leads ← prop stats "total_leads";
  leads_shown ← lift (locale_or_0 total_leads);
  leads_text ← str leads_shown;
  total_jobs ← prop stats "total_jobs";
  jobs_text ← str (js_or total_jobs (JNum 0));
  total_targets ← prop stats "total_targets";
  targets_text ← str (js_or total_targets (JNum 0));
  total_content_analysis ← prop stats "total_content_analysis";
  content_text ← str (js_or total_content_analysis (JNum 0));
  total_api_requests ← prop stats "total_api_requests";
  requests_shown ← lift (locale_or_0 total_api_requests);
  requests_text ← str requests_shown;
  today_api_requests ← prop stats "today_api_requests";
  today_text ← str (js_or today_api_requests (JNum 0));
  token_requests ← prop stats "token_requests";
  token_text ← str (js_or token_requests (JNum 0));
  token_last_used ← prop stats "token_last_used";
  last_used_text ← (if truthy token_last_used then lift (date_text token_last_used)
                    else mret "Never");
  mret ("📊 Statistics Dashboard" +:+ nl +:+ nl +:+
        "👥 Total Leads: " +:+ leads_text +:+ nl +:+
        "📊 Total Jobs: " +:+ jobs_text +:+ nl +:+
        "🎯 Total Targets: " +:+ targets_text +:+ nl +:+
        "📈 Content Analysis: " +:+ content_text +:+
        nl +:+ nl +:+
        "🔑 API Usage:" +:+ nl +:+
        "├ Total Requests: " +:+ requests_text +:+ nl +:+
        "├ Today: " +:+ today_text +:+ nl +:+
        "├ Token Requests: " +:+ token_text +:+ nl +:+
        "└ Last Used: " +:+ last_used_text).

Definition hears_statistics (ctx : Ctx) : M unit :=
  reactToMessage ctx "👀";;
  client ← getClient (identity ctx);
  match client with
  | None => tg_ (Reply not_onboarded None)
  | Some _ =>
      loadingMsg ← tg (Reply "👁️ Fetching statistics..." None);
      try_catch
        (data ← makeApiRequest client "/stats" "GET" JNull;
         stats ← prop data "data";
         message ← stats_message stats;
         tg_ (EditMessageTextAt (chat_id ctx) loadingMsg message);;
         reactToMessage ctx "✅")
        (λ error,
         text ← lift (error_text error "Failed to fetch statistics");
         tg_ (EditMessageTextAt (chat_id ctx) loadingMsg text);;
         reactToMessage ctx "❌")
  end.

(** The body of [data.data.forEach((content, idx) => message += ...)] *)
Fixpoint content_lines (idx : Z) (items : list JsVal) : M string :=
  match items with
  | [] => mret ""
  | content :: rest =>
      platform ← prop content "platform";
      platform_text ← str platform;
      username ← prop content "username";
      username_text ← str username;
      likes_count ← prop content "likes_count";
      likes_shown ← lift (locale_or_0 likes_count);
      likes_text ← str likes_shown;
      comments_count ← prop content "comments_count";
      comments_text ← str (js_or comments_count (JNum 0));
      views_count ← prop content "views_count";
      views_shown ← lift (locale_or_0 views_count);
      views_text ← str views_shown;
      engagement_rate ← prop content "engagement_rate";
      engagement_text ← str (js_or engagement_rate (JStr "N/A"));
      more ← content_lines (idx + 1) rest;
      mret (pretty (idx + 1) +:+ ". 📱 " +:+ platform_text +:+ " - @" +:+
            username_text +:+ nl +:+
            "   ❤️ Likes: " +:+ likes_text +:+ nl +:+
            "   💬 Comments: " +:+ comments_text +:+ nl +:+
            "   👁️ Views: " +:+ views_text +:+ nl +:+
            "   📊 Engagement: " +:+ engagement_text +:+
            nl +:+ nl +:+ more)
  end.

Definition hears_content_analysis (ctx : Ctx) : M unit :=
  reactToMessage ctx "👀";;
  client ← getClient (identity ctx);
  match client with
  | None => tg_ (Reply not_onboarded None)
  | Some _ =>
      loadingMsg ← tg (Reply "👁️ Loading content analysis..." None);
      try_returning
        (data ← makeApiRequest client "/content-analysis?page=1&per_page=5" "GET" JNull;
         items ← prop data "data";
         len ← prop items "length";
         if is_zero len
         then
           reactToMessage ctx "🤷";;
           mret (Some (EditMessageTextAt (chat_id ctx) loadingMsg
                         "📭 No content analysis data found."))
         else
           pagination ← prop data "pagination";
           pages ← prop pagination "pages";
           pages_text ← str pages;
           lines ← match items with
                   | JArr xs => content_lines 0 xs
                   | _ => throw ErrType
                   end;
           tg_ (EditMessageTextAt (chat_id ctx) loadingMsg
                  ("📈 Content Analysis (Page 1/" +:+ pages_text +:+ ")" +:+ nl +:+ nl +:+
                   lines));;
           reactToMessage ctx "✅";;
           mret None)
        (λ error,
         text ← lift (error_text error "Failed to fetch content analysis");
         tg_ (EditMessageTextAt (chat_id ctx) loadingMsg text);;
         reactToMessage ctx "❌")
  end.

(** *** Settings and account deletion *)

Definition hears_settings (ctx : Ctx) : M unit :=
  reactToMessage ctx "⚙️";;
  client ← getClient (identity ctx);
  match client with
  | None => tg_ (Reply not_onboarded None)
  | Some c =>
      tg_ (Reply ("⚙️ Settings" +:+ nl +:+ nl +:+
                  "🆔 Telegram ID: " +:+ number_to_string (from_id ctx) +:+ nl +:+
                  "🔑 Token: " +:+ substring0 10 (apiToken c) +:+ "..." +:+ nl +:+
                  "🌐 Base URL: " +:+ baseUrl c +:+ nl +:+
                  "📅 Created: " +:+ dateLocale E (JNum (createdAt c)) +:+ nl +:+ nl +:+
                  "Commands:" +:+ nl +:+
                  "/settoken - Update API token" +:+ nl +:+
                  "/seturl - Update base URL" +:+ nl +:+
                  "/deleteaccount - Remove your data") None)
  end.

Definition deleteaccount_keyboard : Markup :=
  InlineKeyboard
    [ [ mkButton "✅ Yes, Delete" "confirm_delete_account";
        mkButton "❌ Cancel" "cancel_delete" ] ].

Definition deleteaccount (ctx : Ctx) : M unit :=
  tg_ (Reply ("⚠️ Are you sure you want to delete your account?" +:+ nl +:+ nl +:+
              "This will remove all your saved data.")
             (Some deleteaccount_keyboard)).

Definition account_deleted_text : string :=
  "✅ Account deleted successfully!" +:+ nl +:+ nl +:+
  "Use /settoken to create a new account.".

Definition confirm_delete_account (ctx : Ctx) : M unit :=
  tg_ (AnswerCbQuery (Some "👁️ Deleting account...") false);;
  mongo (DeleteOne (identity ctx));;
  try_catch
    (tg_ (SetMessageReactionAt (chat_id ctx) (cb_message_id ctx) "👋"))
    (λ _, mret tt);;
  tg_ (EditMessageText account_deleted_text None).

Definition cancel_delete_text : string := "❌ Account deletion cancelled.".

Definition cancel_delete (ctx : Ctx) : M unit :=
  tg_ (AnswerCbQuery (Some "Cancelled") false);;
  tg_ (EditMessageText cancel_delete_text None).

(** *** Back navigation *)

Definition back_menu (ctx : Ctx) : M unit :=
  tg_ (AnswerCbQuery None false);;
  tg_ DeleteMessage;;
  tg_ (Reply "Choose an option:" (Some mainMenu)).

Definition back_to (title : string) (keyboard : Markup) (ctx : Ctx) : M unit :=
  tg_ (AnswerCbQuery None false);;
  tg_ (EditMessageText title (Some keyboard)).

Definition back_jobs : Ctx → M unit := back_to jobs_title jobs_menu.
Definition back_targets : Ctx → M unit := back_to targets_title targets_menu.
Definition back_leads : Ctx → M unit := back_to leads_title leads_menu.

Definition hears_cancel (ctx : Ctx) : M unit :=
  tg_ (Reply "Operation cancelled." (Some mainMenu)).

End Bot.

Arguments request_config : simpl never.
Arguments testConfig : simpl never.

(** ** The navigation router *)

(** The triggers given to [bot.action]. A string trigger matches the
    callback data when both are equal. A regular expression is applied with
    [RegExp.prototype.exec]: it is not anchored, so it matches when the
    pattern occurs anywhere in the data, at the leftmost such place. The
    two shapes in use are a literal followed by the group [(\d+)]
    ([TDigits]) and a literal followed by a group of alternatives
    ([TAlt]). *)
Inductive Trigger :=
| TExact (s : string)
| TDigits (literal : string)
| TAlt (literal : string) (alternatives : list string).

Definition is_digit (c : Ascii.ascii) : bool :=
  let n := Ascii.nat_of_ascii c in (48 <=? n)%nat && (n <=? 57)%nat.

(** The longest run of digits at the start of [s]: what a greedy [\d+]
    consumes. *)
Fixpoint take_digits (s : string) : string :=
  match s with
  | EmptyString => ""
  | String c rest => if is_digit c then String c (take_digits rest) else ""
  end.

(** [s] without the prefix [p], when it starts with it. *)
Fixpoint strip_prefix (p s : string) : option string :=
  match p, s with
  | EmptyString, _ => Some s
  | String a p', String b s' => if Ascii.eqb a b then strip_prefix p' s' else None
  | String _ _, EmptyString => None
  end.

(** The match array ([whole match; group 1]) of the pattern applied at the
    start of [s]. *)
Definition match_here (t : Trigger) (s : string) : option (list string) :=
  match t with
  | TExact _ => None
  | TDigits lit =>
      match strip_prefix lit s with
      | Some rest =>
          let ds := take_digits rest in
          if String.eqb ds "" then None else Some [lit +:+ ds; ds]
      | None => None
      end
  | TAlt lit alts =>
      match strip_prefix lit s with
      | Some rest =>
          match List.find (λ a, String.prefix a rest) alts with
          | Some a => Some [lit +:+ a; a]
          | None => None
          end
      | None => None
      end
  end.

(** Leftmost match of an unanchored pattern. *)
Fixpoint search (t : Trigger) (s : string) : option (list string) :=
  match match_here t s with
  | Some m => Some m
  | None =>
      match s with
      | EmptyString => None
      | String _ rest => search t rest
      end
  end.

Definition trigger_exec (t : Trigger) (data : string) : option (list string) :=
  match t with
  | TExact s => if String.eqb s data then Some [data] else None
  | _ => search t data
  end.

(** The handlers registered with [bot.action]. *)
Inductive Action :=
| A_jobs_list
| A_job_details
| A_run_job
| A_delete_job
| A_confirm_delete_job
| A_targets_list
| A_leads_list
| A_lead_details
| A_confirm_delete_account
| A_cancel_delete
| A_back_menu
| A_back_jobs
| A_back_targets
| A_back_leads.

(** The [bot.action] registrations, in the order of the source: Telegraf
    tries them in that order and runs the first whose trigger matches; no
    handler calls [next]. *)
Definition actions : list (Trigger * Action) :=
  [ (TExact "jobs_list", A_jobs_list);
    (TDigits "job_", A_job_details);
    (TDigits "run_job_", A_run_job);
    (TDigits "delete_job_", A_delete_job);
    (TDigits "confirm_delete_job_", A_confirm_delete_job);
    (TExact "targets_list", A_targets_list);
    (TAlt "leads_" ["all"; "ready"], A_leads_list);
    (TDigits "lead_", A_lead_details);
    (TExact "confirm_delete_account", A_confirm_delete_account);
    (TExact "cancel_delete", A_cancel_delete);
    (TExact "back_menu", A_back_menu);
    (TExact "back_jobs", A_back_jobs);
    (TExact "back_targets", A_back_targets);
    (TExact "back_leads", A_back_leads) ].

Fixpoint route {H} (table : list (Trigger * H)) (data : string)
  : option (H * list string) :=
  match table with
  | [] => None
  | (t, h) :: rest =>
      match trigger_exec t data with
      | Some m => Some (h, m)
      | None => route rest data
      end
  end.

Definition action_handler (E : Env) (a : Action) : Ctx → M unit :=
  match a with
  | A_jobs_list => jobs_list E
  | A_job_details => job_details E
  | A_run_job => run_job E
  | A_delete_job => delete_job E
  | A_confirm_delete_job => confirm_delete_job E
  | A_targets_list => targets_list E
  | A_leads_list => leads_list E
  | A_lead_details => lead_details E
  | A_confirm_delete_account => confirm_delete_account E
  | A_cancel_delete => cancel_delete E
  | A_back_menu => back_menu E
  | A_back_jobs => back_jobs E
  | A_back_targets => back_targets E
  | A_back_leads => back_leads E
  end.

(** The handlers of text messages: [bot.command] matches the bot command
    Telegram marked at the start of the text, [bot.hears] with a string the
    whole text. *)
Inductive MessageTrigger :=
| Command (name : string)
| Hears (text : string).

Inductive MessageHandler :=
| H_start
| H_settoken
| H_seturl
| H_jobs
| H_targets
| H_leads
| H_statistics
| H_content_analysis
| H_settings
| H_deleteaccount
| H_cancel.

Definition messages : list (MessageTrigger * MessageHandler) :=
  [ (Command "start", H_start);
    (Command "settoken", H_settoken);
    (Command "seturl", H_seturl);
    (Hears "📊 Jobs", H_jobs);
    (Hears "🎯 Targets", H_targets);
    (Hears "👥 Leads", H_leads);
    (Hears "📉 Statistics", H_statistics);
    (Hears "📈 Content Analysis", H_content_analysis);
    (Hears "⚙️ Settings", H_settings);
    (Command "deleteaccount", H_deleteaccount);
    (Hears "❌ Cancel", H_cancel) ].

Definition message_handler (E : Env) (h : MessageHandler) : Ctx → M unit :=
  match h with
  | H_start => start E
  | H_settoken => settoken E
  | H_seturl => seturl E
  | H_jobs => hears_jobs E
  | H_targets => hears_targets E
  | H_leads => hears_leads E
  | H_statistics => hears_statistics E
  | H_content_analysis => hears_content_analysis E
  | H_settings => hears_settings E
  | H_deleteaccount => deleteaccount E
  | H_cancel => hears_cancel E
  end.

(** An update: a text message, with the name of the bot command at its
    start when there is one, or the press of an inline button, with the
    button's callback data. *)
Inductive Update :=
| Message (command : option string)
| CallbackQuery (data : string).

Definition message_trigger_matches (t : MessageTrigger) (command : option string)
    (text : string) : bool :=
  match t with
  | Command name =>
      match command with
      | Some c => String.eqb c name
      | None => false
      end
  | Hears s => String.eqb s text
  end.

Fixpoint route_message (table : list (MessageTrigger * MessageHandler))
    (command : option string) (text : string) : option MessageHandler :=
  match table with
  | [] => None
  | (t, h) :: rest =>
      if message_trigger_matches t command text then Some h
      else route_message rest command text
  end.

Definition with_match (ctx : Ctx) (m : list string) : Ctx :=
  mkCtx (from_id ctx) (first_name ctx) (chat_id ctx) (message_text ctx)
        (cb_message_id ctx) m.

(** The middleware chain: the first matching handler runs; an update no
    trigger matches reaches the end of the chain, where nothing is done. *)
Definition dispatch (E : Env) (u : Update) (ctx : Ctx) : M unit :=
  match u with
  | CallbackQuery data =>
      match route actions data with
      | Some (a, m) => action_handler E a (with_match ctx m)
      | None => mret tt
      end
  | Message command =>
      match route_message messages command (message_text ctx) with
      | Some h => message_handler E h ctx
      | None => mret tt
      end
  end.

Definition generic_error_text : string := "❌ An error occurred. Please try again.".

(** [bot.catch]: what a handler throws is answered with a generic
    message. The reply is not awaited; its rejection is handled nowhere
    and is the outcome of the whole update. *)
Definition bot (E : Env) (u : Update) (ctx : Ctx) : M unit :=
  try_catch (dispatch E u ctx) (λ _, tg_ E (Reply generic_error_text None)).

(** * Properties *)

(** ** Assumptions on the outside *)

Definition telegram_ok (E : Env) : Prop := ∀ h c, is_Some (telegram E h c).
Definition store_up (E : Env) : Prop := ∀ h, mongo_up E h = true.

(** ** Properties of the effects a handler adds *)

(** [adds P m]: whatever the outside answers, [m] only appends effects to
    the trace, and each of them satisfies [P]. *)
Definition adds (P : Effect → Prop) {A} (m : M A) : Prop :=
  ∀ w, ∃ l, trace (snd (m w)) = (trace w ++ l)%list ∧ Forall P l.

Definition no_timeout (e : Effect) : Prop :=
  match e with
  | EAxios cfg => cfg_timeout cfg = JUndefined
  | _ => True
  end.

(** The text of the confirmation screen of a job deletion. *)
Definition delete_job_prompt : string :=
  "⚠️ Are you sure you want to delete this job?" +:+ nl +:+ nl +:+
  "This action cannot be undone.".

(** Effects that are no part of the deletion of a job: no request other
    than a GET, neither the confirmation screen nor the success screen,
    no announcement of the deletion and no delayed menu. *)
Definition no_job_deletion (e : Effect) : Prop :=
  match e with
  | EAxios cfg => cfg_method cfg = JStr "GET"
  | ETelegram (EditMessageText text _) =>
      text ≠ delete_job_prompt ∧ text ≠ job_deleted_text
  | ETelegram (AnswerCbQuery (Some text) _) => text ≠ "✅ Job deleted!"
  | ESetTimeout _ _ => False
  | _ => True
  end.

(** Anything but the "not onboarded" message. *)
Definition not_the_onboarding_notice (e : Effect) : Prop :=
  e ≠ ETelegram (Reply not_onboarded None).


Definition is_screen (e : Effect) : bool :=
  match e with
  | ETelegram (EditMessageText _ _) | ETelegram (EditMessageTextAt _ _ _) => true
  | _ => false
  end.

(** The last screen a run of the bot rendered. *)
Definition last_screen (w : World) : option TgCall :=
  match last (List.filter is_screen (trace w)) with
  | Some (ETelegram c) => Some c
  | _ => None
  end.

Fixpoint all_digits (s : string) : bool :=
  match s with
  | EmptyString => true
  | String c rest => is_digit c && all_digits rest
  end.

(** ** Scenarios *)

(** A concrete outside: Telegram accepts every call, the store is up when
    [up], the clock stands at 1000, [API_BASE_URL] is not set. *)
Definition env_of (ax : list Effect → AxiosConfig → AxiosResult) (up : bool) : Env :=
  {| axios := ax;
     telegram := λ _ _, Some 100;
     mongo_up := λ _, up;
     clock := λ _, 1000;
     API_BASE_URL := None;
     numLocale := to_str;
     dateLocale := to_str |}.

(** Identity 7, its credential, and the store without and with it. *)
Definition client7 : Client := mkClient "7" "tok" "http://api.test/v1" 1 2.
Definition world_empty : World := mkWorld ∅ [].
Definition world7 : World := mkWorld {[ "7" := client7 ]} [].

(** A button press and a text message of identity 7. *)
Definition press7 : Ctx := mkCtx 7 "Al" 70 "" 5 [].
Definition say (text : string) : Ctx := mkCtx 7 "Al" 70 text 0 [].

Definition is_delete (cfg : AxiosConfig) : bool :=
  match cfg_method cfg with
  | JStr m => String.eqb m "DELETE"
  | _ => false
  end.

Definition is_delete_of (url : JsVal) (e : Effect) : bool :=
  match e with
  | EAxios c => is_delete c && String.eqb (to_str (cfg_url c)) (to_str url)
  | _ => false
  end.

(** A backend that holds jobs: deleting a job succeeds the first time and
    is answered "not found" once a deletion of the same job has been
    issued; every other request is answered with an empty page. *)
Definition jobs_backend (h : list Effect) (cfg : AxiosConfig) : AxiosResult :=
  if is_delete cfg
  then
    if existsb (is_delete_of (cfg_url cfg)) h
    then AxiosFail (JObj [("error", JStr "Job not found")])
    else AxiosOk (JObj [("message", JStr "Job deleted")])
  else AxiosOk (JObj [("data", JArr []);
                      ("pagination", JObj [("page", JNum 1); ("pages", JNum 0);
                                           ("total", JNum 0)])]).

Definition jobs_env : Env := env_of jobs_backend true.

(** An outside whose backend rejects every request. *)
Definition unreachable_env : Env := env_of (λ _ _, AxiosFail JUndefined) true.

Definition is_request (e : Effect) : bool :=
  match e with EAxios _ => true | _ => false end.

(** An outside whose store goes down once a request has been sent to the
    backend. *)
Definition flaky_store_env : Env :=
  {| axios := jobs_backend;
     telegram := λ _ _, Some 100;
     mongo_up := λ h, negb (existsb is_request h);
     clock := λ _, 1000;
     API_BASE_URL := None;
     numLocale := to_str;
     dateLocale := to_str |}.



(** The press of [Yes, Delete] for job 3 and the world once the bot has
    handled it. *)
Definition confirm_press3 : Update := CallbackQuery "confirm_delete_job_3".



(** The messages [/settoken abc] and [/seturl https://custom.example/api]
    of identity 7, and the world once the second is handled. *)
Definition settoken_abc : Ctx := say "/settoken abc".
Definition seturl_custom : Ctx := say "/seturl https://custom.example/api".

Definition after_seturl : World := snd (seturl jobs_env seturl_custom world7).

(** A page of a list endpoint: page 1 of 3, with the given total. *)
Definition page_of (items : list JsVal) (total : JsVal) : JsVal :=
  JObj [("data", JArr items);
        ("pagination", JObj [("page", JNum 1); ("pages", JNum 3); ("total", total)])].

Definition paging_env (items : list JsVal) (total : JsVal) : Env :=
  env_of (λ _ _, AxiosOk (page_of items total)) true.

Definition acme_target : JsVal := JObj [("id", JNum 4); ("identifier", JStr "acme")].

Definition acme_post : JsVal :=
  JObj [("platform", JStr "instagram"); ("username", JStr "acme");
        ("likes_count", JNum 12); ("comments_count", JNum 3);
        ("views_count", JNum 40); ("engagement_rate", JStr "4.2")].

Definition acme_job : JsVal :=
  JObj [("id", JNum 9); ("name", JStr "scrape"); ("status", JStr "running")].

Definition acme_lead : JsVal :=
  JObj [("id", JNum 5); ("username", JStr "bob"); ("followers", JNum 120)].

(** ** Vocabulary of the further properties *)

(** [keeps J Q m]: a run of [m] from a collection satisfying [J] ends in
    a collection satisfying [J], whatever the outside answers, and a value
    it returns satisfies [Q]. *)
Definition keeps (J : gmap string Client → Prop) {A} (Q : A → Prop) (m : M A) : Prop :=
  ∀ w, J (db w) → J (db (snd (m w))) ∧ ∀ a, fst (m w) = Ret a → Q a.

Definition any {A} : A → Prop := λ _, True.

(** What identifies and authorises a record: everything but [lastUsed]. *)
Definition credential (c : Client) : string * string * string * Z :=
  (telegramId c, apiToken c, baseUrl c, createdAt c).

Definition same_credentials (d d' : gmap string Client) : Prop :=
  ∀ id, credential <$> (d' !! id) = credential <$> (d !! id).

(** Every document is stored under its own [telegramId]. *)
Definition well_keyed (d : gmap string Client) : Prop :=
  ∀ id c, d !! id = Some c → telegramId c = id.

(** The collection as identity [id] may have left it: well keyed, and the
    documents of the other identities as in [d0]. *)
Definition only_touched (id : string) (d0 d : gmap string Client) : Prop :=
  well_keyed d ∧ ∀ id', id' ≠ id → d !! id' = d0 !! id'.

(** The document a store operation is addressed to. *)
Definition op_key (op : MongoOp) : string :=
  match op with
  | FindOne id | UpdateLastUsed id _ | UpdateBaseUrl id _ | Upsert id _ _ _
  | DeleteOne id => id
  end.

(** A store operation is addressed to [id]; other effects are of no
    concern. *)
Definition addressed_to (id : string) (e : Effect) : Prop :=
  match e with
  | EMongo op => op_key op = id
  | _ => True
  end.

Definition get_only (e : Effect) : Prop :=
  match e with
  | EAxios cfg => cfg_method cfg = JStr "GET"
  | _ => True
  end.

Definition no_request (e : Effect) : Prop :=
  match e with
  | EAxios _ => False
  | _ => True
  end.

(** [undefined] and [null], the values whose properties cannot be read. *)
Definition nullish (v : JsVal) : bool :=
  match v with
  | JUndefined | JNull => true
  | _ => false
  end.

Fixpoint no_space (s : string) : bool :=
  match s with
  | EmptyString => true
  | String c rest => negb (Ascii.eqb c (Ascii.ascii_of_nat 32%nat)) && no_space rest
  end.

(** [issues pre m w]: run from [w], [m] first adds the effects [pre]. *)
Definition issues {A} (pre : list Effect) (m : M A) (w : World) : Prop :=
  ∃ l, trace (snd (m w)) = (trace w ++ pre ++ l)%list.

(** The world after one more effect. *)
Definition after (w : World) (e : Effect) : World :=
  {| db := db w; trace := trace w ++ [e] |}.

(** The record of [c] once its base URL is set to [url]. *)
Definition with_baseUrl (url : string) (c : Client) : Client :=
  mkClient (telegramId c) (apiToken c) url (createdAt c) (lastUsed c).

(** [v.k] for a value whose properties can be read. *)
Definition prop_of (v : JsVal) (k : string) : JsVal :=
  match get_prop v k with
  | Ret x => x
  | Throw _ => JUndefined
  end.

(** A conversion that fails only with a TypeError. *)
Definition type_errors_only {A} (r : Res A) : Prop :=
  ∀ e, r = Throw e → e = ErrType.

(** [fails_quietly m]: [m] throws, without any effect, a value that has no
    property [error]. *)
Definition fails_quietly {A} (m : M A) : Prop :=
  ∀ w, ∃ e, m w = (Throw e, w) ∧ error_prop e = JUndefined.

(** The entries of the main menu whose handlers load the credential. *)
Definition menu_entries : list string :=
  ["📊 Jobs"; "🎯 Targets"; "👥 Leads"; "📈 Content Analysis"; "📉 Statistics";
   "⚙️ Settings"].

(** A row of the job list can be rendered: the properties of the job can
    be read, and its status, its name and its id can be printed. *)
Definition renders (job : JsVal) : bool :=
  negb (nullish job) && negb (unprintable (prop_of job "status")) &&
  negb (unprintable (prop_of job "name")) && negb (unprintable (prop_of job "id")).

(** The row of a job in the job list. *)
Definition job_row (job : JsVal) : list Button :=
  [mkButton (status_mark (to_str (prop_of job "status")) +:+ " " +:+
             to_str (prop_of job "name"))
            ("job_" +:+ to_str (prop_of job "id"))].

(** The page position can be rendered: [pagination] can be read, and the
    page, the number of pages and the total can be printed. *)
Definition page_renders (pagination : JsVal) : bool :=
  negb (nullish pagination) && negb (unprintable (prop_of pagination "page")) &&
  negb (unprintable (prop_of pagination "pages")) &&
  negb (unprintable (prop_of pagination "total")).

Definition jobs_header (pagination : JsVal) : string :=
  "📊 Jobs List (Page " +:+ to_str (prop_of pagination "page") +:+ "/" +:+
  to_str (prop_of pagination "pages") +:+ ")" +:+ nl +:+
  "📦 Total: " +:+ to_str (prop_of pagination "total") +:+ nl +:+ nl +:+
  "Select a job to view details:".

Definition settoken_usage : string :=
  "❌ Please provide your API token:" +:+ nl +:+ "/settoken YOUR_TOKEN".

(** [guarded J P Q m]: [keeps J Q m], and from a collection satisfying
    [J] every effect [m] adds satisfies [P]. *)
Definition guarded (J : gmap string Client → Prop) (P : Effect → Prop) {A}
    (Q : A → Prop) (m : M A) : Prop :=
  ∀ w, J (db w) →
    J (db (snd (m w))) ∧
    (∃ l, trace (snd (m w)) = (trace w ++ l)%list ∧ Forall P l) ∧
    ∀ a, fst (m w) = Ret a → Q a.

(** The token a [/settoken] message carries, its first argument; [None]
    for any other update. *)
Definition typed_token (u : Update) (ctx : Ctx) : option string :=
  match u with
  | Message (Some command) =>
      if String.eqb command "settoken"
      then head (tail (split_space (message_text ctx)))
      else None
  | _ => None
  end.

(** A request is the sender's own when it is built by the proxy from the
    document [oc] of the sender, or is the verification request for the
    token [typed] that the sender submitted with [/settoken]. *)
Definition own_request (E : Env) (typed : option string) (oc : option Client)
    (e : Effect) : Prop :=
  match e with
  | EAxios cfg =>
      (∃ c endpoint method data,
         oc = Some c ∧ cfg = request_config c endpoint method data) ∨
      (∃ token, typed = Some token ∧ cfg = testConfig E token)
  | _ => True
  end.


(** Telegram accepts every message sent with [ctx.reply]; the other calls
    it may refuse. *)
Definition replies_accepted (E : Env) : Prop :=
  ∀ h text extra, is_Some (telegram E h (Reply text extra)).

Definition onboarding_text : string :=
  "👋 Welcome to the API Management Bot!" +:+ nl +:+ nl +:+
  "🔑 To get started, please set your API token using:" +:+ nl +:+
  "/settoken YOUR_API_TOKEN" +:+ nl +:+ nl +:+
  "📝 Example:" +:+ nl +:+
  "/settoken abc123def456".

Definition welcome_back_text (E : Env) (ctx : Ctx) (c : Client) : string :=
  "✅ Welcome back!" +:+ nl +:+ nl +:+
  "🆔 Your ID: " +:+ first_name ctx +:+ nl +:+
  "📅 Last used: " +:+ dateLocale E (JNum (lastUsed c)) +:+ nl +:+ nl +:+
  "Choose an option below:".



(** An outside in which Telegram accepts replies only: edits and answers
    to presses are refused. *)
Definition replies_only_env : Env :=
  {| axios := jobs_backend;
     telegram := λ _ c, match c with Reply _ _ => Some 100 | _ => None end;
     mongo_up := λ _, true;
     clock := λ _, 1000;
     API_BASE_URL := None;
     numLocale := to_str;
     dateLocale := to_str |}.

(** A job whose status names a member that object literals inherit. *)
Definition odd_job : JsVal :=
  JObj [("id", JNum 10); ("name", JStr "crawl"); ("status", JStr "constructor")].









(** ** Routing *)

Lemma take_digits_all s : all_digits s = true → take_digits s = s.
Proof.
  induction s as [|c s IH]; simpl; [done|].
  intros [Hc Hs]%andb_true_iff. rewrite Hc. by rewrite IH.
Qed.

Lemma eqb_nonempty s : s ≠ "" → String.eqb s "" = false.
Proof. by destruct s. Qed.

Lemma append_cons c p s : String c p +:+ s = String c (p +:+ s).
Proof. reflexivity. Qed.

Lemma search_here t s m : match_here t s = Some m → search t s = Some m.
Proof. intros H. destruct s; simpl; by rewrite H. Qed.

Lemma search_skip t c s :
  match_here t (String c s) = None → search t (String c s) = search t s.
Proof. intros H. simpl search. by rewrite H. Qed.

(** What [/job_(\d+)/] finds once the search has reached [job_<id>]. *)
Lemma job_pattern_here ds :
  all_digits ds = true → ds ≠ "" →
  match_here (TDigits "job_") ("job_" +:+ ds) = Some ["job_" +:+ ds; ds].
Proof.
  intros Hd Hne. unfold match_here.
  change (strip_prefix "job_" ("job_" +:+ ds)) with (Some ds).
  cbv beta iota zeta. rewrite (take_digits_all _ Hd).
  by rewrite (eqb_nonempty _ Hne).
Qed.

(** An identifier of the job list is routed to the detail handler with its
    id. *)
Lemma route_job ds :
  all_digits ds = true → ds ≠ "" →
  route actions ("job_" +:+ ds) = Some (A_job_details, ["job_" +:+ ds; ds]).
Proof.
  intros Hd Hne. unfold route, actions, trigger_exec.
  change (String.eqb "jobs_list" ("job_" +:+ ds)) with false. cbv iota.
  by rewrite (search_here _ _ _ (job_pattern_here _ Hd Hne)).
Qed.

(** The static identifiers of the catalog reach their own handlers. *)
Lemma route_static :
  route actions "jobs_list" = Some (A_jobs_list, ["jobs_list"]) ∧
  route actions "targets_list" = Some (A_targets_list, ["targets_list"]) ∧
  route actions "leads_all" = Some (A_leads_list, ["leads_all"; "all"]) ∧
  route actions "leads_ready" = Some (A_leads_list, ["leads_ready"; "ready"]) ∧
  route actions "back_menu" = Some (A_back_menu, ["back_menu"]) ∧
  route actions "back_jobs" = Some (A_back_jobs, ["back_jobs"]) ∧
  route actions "back_targets" = Some (A_back_targets, ["back_targets"]) ∧
  route actions "back_leads" = Some (A_back_leads, ["back_leads"]) ∧
  route actions "confirm_delete_account"
    = Some (A_confirm_delete_account, ["confirm_delete_account"]) ∧
  route actions "cancel_delete" = Some (A_cancel_delete, ["cancel_delete"]).
Proof. repeat split; reflexivity. Qed.

(** C1. The identifiers [run_job_<id>], [delete_job_<id>] and
    [confirm_delete_job_<id>] rendered by the job screens are not routed to
    the handlers registered for them: the pattern [/job_(\d+)/], registered
    first and not anchored, occurs inside each of them, so all three reach
    the job detail handler, with the id as the only thing recovered. *)
Theorem C1_job_verbs_reach_job_details ds :
  all_digits ds = true → ds ≠ "" →
  route actions ("run_job_" +:+ ds) = Some (A_job_details, ["job_" +:+ ds; ds]) ∧
  route actions ("delete_job_" +:+ ds) = Some (A_job_details, ["job_" +:+ ds; ds]) ∧
  route actions ("confirm_delete_job_" +:+ ds)
    = Some (A_job_details, ["job_" +:+ ds; ds]).
Proof.
  intros Hd Hne.
  pose proof (search_here _ _ _ (job_pattern_here _ Hd Hne)) as Hjob.
  repeat split; unfold route, actions, trigger_exec;
    (change (String.eqb "jobs_list" _) with false); cbv iota;
    repeat (rewrite append_cons; rewrite search_skip by reflexivity);
    by rewrite Hjob.
Qed.

Lemma C1_job_verbs_reach_job_details_witness :
  route actions "run_job_7" = Some (A_job_details, ["job_7"; "7"]) ∧
  route actions "delete_job_7" = Some (A_job_details, ["job_7"; "7"]) ∧
  route actions "confirm_delete_job_7" = Some (A_job_details, ["job_7"; "7"]).
Proof. apply (C1_job_verbs_reach_job_details "7"); [reflexivity | discriminate]. Defined.

(** End to end: the press of [Yes, Delete] for job 3 makes the bot load the
    details of job 3; the request that would delete it is never issued. *)
Lemma confirm_press_loads_job_details :
  List.filter is_request
    (trace (snd (bot jobs_env (CallbackQuery "confirm_delete_job_3") press7 world7)))
  = [EAxios (request_config client7 "/jobs/3" "GET" JNull)].
Proof. reflexivity. Qed.

(** ** Running a handler symbolically *)

Ltac unfold_run :=
  unfold try_returning, makeApiRequest, getClient, reactToMessage, tg_, tg,
    axios_call, mongo, new_Date, get_db, emit, prop, str, lift, throw, try_catch;
  unfold mbind, M_bind, mret, M_ret.

(** Take the calls to Telegram and to the store that head the goal, under
    the assumptions [Htg : telegram_ok E] and [Hup : store_up E]. *)
Ltac exec Htg Hup :=
  repeat (cbn; rewrite <- ?app_assoc; cbn;
    match goal with
    | |- context [telegram ?E ?h ?c] => destruct (Htg h c) as [? ->]
    | |- context [mongo_up ?E ?h] => rewrite (Hup h)
    end); cbn; rewrite <- ?app_assoc; cbn.

(** ** What a handler adds to the trace *)

Section Adds.

Variable P : Effect → Prop.
Variable E : Env.

Lemma adds_nothing {A} (m : M A) : (∀ w, snd (m w) = w) → adds P m.
Proof.
  intros H w. exists []. rewrite H. split; [by rewrite app_nil_r | constructor].
Qed.

Lemma adds_ret {A} (a : A) : adds P (mret a).
Proof. by apply adds_nothing. Qed.

Lemma adds_throw {A} e : adds P (@throw A e).
Proof. by apply adds_nothing. Qed.

Lemma adds_lift {A} (r : Res A) : adds P (lift r).
Proof. by apply adds_nothing. Qed.

Lemma adds_get_db : adds P get_db.
Proof. by apply adds_nothing. Qed.

Lemma adds_new_Date : adds P (new_Date E).
Proof. by apply adds_nothing. Qed.

Lemma adds_one {A} (m : M A) e :
  P e → (∀ w, trace (snd (m w)) = (trace w ++ [e])%list) → adds P m.
Proof. intros He H w. exists [e]. split; [apply H | by constructor]. Qed.

Lemma adds_emit e : P e → adds P (emit e).
Proof. intros He. by apply (adds_one _ e). Qed.

Lemma adds_tg c : P (ETelegram c) → adds P (tg E c).
Proof.
  intros He. apply (adds_one _ (ETelegram c)); [done|].
  intros w. unfold tg. by destruct (telegram E _ _).
Qed.

Lemma adds_axios cfg : P (EAxios cfg) → adds P (axios_call E cfg).
Proof.
  intros He. apply (adds_one _ (EAxios cfg)); [done|].
  intros w. unfold axios_call. by destruct (axios E _ _).
Qed.

Lemma adds_mongo op : P (EMongo op) → adds P (mongo E op).
Proof.
  intros He. apply (adds_one _ (EMongo op)); [done|].
  intros w. unfold mongo. by destruct (mongo_up E _).
Qed.

Lemma adds_bind {A B} (m : M A) (f : A → M B) :
  adds P m → (∀ a, adds P (f a)) → adds P (m ≫= f).
Proof.
  intros Hm Hf w. destruct (Hm w) as (l1 & Hl1 & HP1).
  unfold mbind, M_bind. destruct (m w) as [[a|e] w1]; simpl in *.
  - destruct (Hf a w1) as (l2 & Hl2 & HP2).
    exists (l1 ++ l2)%list. split; [|by apply Forall_app].
    by rewrite Hl2, Hl1, app_assoc.
  - by exists l1.
Qed.

Lemma adds_try_catch {A} (body : M A) (handler : Thrown → M A) :
  adds P body → (∀ e, adds P (handler e)) → adds P (try_catch body handler).
Proof.
  intros Hm Hf w. destruct (Hm w) as (l1 & Hl1 & HP1).
  unfold try_catch. destruct (body w) as [[a|e] w1]; simpl in *.
  - by exists l1.
  - destruct (Hf e w1) as (l2 & Hl2 & HP2).
    exists (l1 ++ l2)%list. split; [|by apply Forall_app].
    by rewrite Hl2, Hl1, app_assoc.
Qed.

Lemma adds_mapM {A} (f : JsVal → M A) xs :
  (∀ x, adds P (f x)) → adds P (mapM f xs).
Proof.
  intros Hf. induction xs as [|x xs IH]; simpl.
  - apply adds_ret.
  - apply adds_bind; [apply Hf|]. intros y.
    apply adds_bind; [apply IH|]. intros ys. apply adds_ret.
Qed.

Lemma adds_content_lines idx items : adds P (content_lines E idx items).
Proof.
  revert idx. induction items as [|x xs IH]; intros idx; simpl.
  - apply adds_ret.
  - repeat (apply adds_bind; [apply adds_lift|]; intros ?).
    apply adds_bind; [apply IH|]. intros ?. apply adds_ret.
Qed.

End Adds.

(** Decompose a handler into its calls; what is left are the conditions
    [P e] on the effects it can add. *)
Ltac adds_step :=
  match goal with
  | |- adds _ (mbind _ _) => apply adds_bind; [|intros ?]
  | |- adds _ (try_catch _ _) => apply adds_try_catch; [|intros ?]
  | |- adds _ (mret _) => apply adds_ret
  | |- adds _ (throw _) => apply adds_throw
  | |- adds _ (lift _) => apply adds_lift
  | |- adds _ get_db => apply adds_get_db
  | |- adds _ (new_Date _) => apply adds_new_Date
  | |- adds _ (emit _) => apply adds_emit
  | |- adds _ (tg _ _) => apply adds_tg
  | |- adds _ (axios_call _ _) => apply adds_axios
  | |- adds _ (mongo _ _) => apply adds_mongo
  | |- adds _ (mapM _ _) => apply adds_mapM; intros ?
  | |- adds _ (content_lines _ _ _) => apply adds_content_lines
  | |- adds _ (match ?x with _ => _ end) => destruct x
  end.

Ltac unfold_handlers :=
  unfold start, settoken, seturl, hears_jobs, hears_targets, hears_leads,
    menu_hears, hears_statistics, stats_message, hears_content_analysis,
    hears_settings, deleteaccount, hears_cancel, jobs_list, job_details, run_job,
    delete_job, confirm_delete_job, targets_list, leads_list, lead_details,
    confirm_delete_account, cancel_delete, back_menu, back_jobs, back_targets,
    back_leads, back_to, js_map, job_button, target_button, lead_button;
  unfold try_returning, makeApiRequest, getClient, reactToMessage, tg_, prop, str.

Ltac adds_auto := unfold_handlers; repeat adds_step.

(** ** Equations for the calls of a handler *)

Lemma bind_run {A B} (m : M A) (f : A → M B) w :
  (m ≫= f) w =
    match m w with
    | (Ret a, w') => f a w'
    | (Throw e, w') => (Throw e, w')
    end.
Proof. reflexivity. Qed.

Lemma tg__run E c w :
  telegram_ok E → tg_ E c w = (Ret tt, after w (ETelegram c)).
Proof.
  intros Htg. unfold tg_, tg. rewrite bind_run.
  by destruct (Htg (trace w) c) as [? ->].
Qed.

Lemma mongo_run E op w :
  store_up E →
  mongo E op w = (Ret tt, {| db := apply_op op (db w); trace := trace w ++ [EMongo op] |}).
Proof. intros Hup. unfold mongo. by rewrite Hup. Qed.

Lemma getClient_run E id w :
  store_up E → getClient E id w = (Ret (db w !! id), after w (EMongo (FindOne id))).
Proof.
  intros Hup. unfold getClient. rewrite bind_run, mongo_run by done.
  reflexivity.
Qed.

(** [reactToMessage] does nothing: it neither throws nor calls Telegram. *)
Lemma reactToMessage_run ctx emoji w : reactToMessage ctx emoji w = (Ret tt, w).
Proof. reflexivity. Qed.

Lemma prop_run v k w : nullish v = false → prop v k w = (Ret (prop_of v k), w).
Proof. intros Hv. unfold prop, lift, prop_of. by destruct v. Qed.

Lemma prop_nullish v k w : nullish v = true → prop v k w = (Throw ErrType, w).
Proof. intros Hv. unfold prop, lift. by destruct v. Qed.

Lemma str_run v w : unprintable v = false → str v w = (Ret (to_str v), w).
Proof. intros Hv. unfold str, lift, to_string. by rewrite Hv. Qed.

Lemma str_unprintable v w : unprintable v = true → str v w = (Throw ErrType, w).
Proof. intros Hv. unfold str, lift, to_string. by rewrite Hv. Qed.

Lemma statusEmoji_run status :
  unprintable status = false → statusEmoji status = Ret (status_mark (to_str status)).
Proof. intros Hs. unfold statusEmoji, to_string. by rewrite Hs. Qed.

(** In the safe range a number is printed digit by digit. *)
Lemma to_str_safe n :
  - max_safe_integer ≤ n ≤ max_safe_integer → to_str (JNum n) = pretty n.
Proof.
  intros Hn. unfold to_str, number_to_string, safe_integer.
  by rewrite (proj2 (Z.leb_le _ _) (proj1 Hn)), (proj2 (Z.leb_le _ _) (proj2 Hn)).
Qed.

(** ** The first effects of a handler *)

Lemma issues_bind {A B} pre (m : M A) (f : A → M B) w :
  issues pre m w → (∀ a, adds any (f a)) → issues pre (m ≫= f) w.
Proof.
  intros [l Hl] Hf. unfold issues. rewrite bind_run.
  destruct (m w) as [[a|e] w1]; simpl in *.
  - destruct (Hf a w1) as (l2 & Hl2 & _). exists (l ++ l2)%list.
    by rewrite Hl2, Hl, <- !app_assoc.
  - by exists l.
Qed.

Lemma issues_try_catch {A} pre (body : M A) (handler : Thrown → M A) w :
  issues pre body w → (∀ e, adds any (handler e)) →
  issues pre (try_catch body handler) w.
Proof.
  intros [l Hl] Hf. unfold issues, try_catch.
  destruct (body w) as [[a|e] w1]; simpl in *.
  - by exists l.
  - destruct (Hf e w1) as (l2 & Hl2 & _). exists (l ++ l2)%list.
    by rewrite Hl2, Hl, <- !app_assoc.
Qed.

Lemma issues_try_returning pre body handler E w :
  issues pre body w → (∀ e, adds any (handler e)) →
  issues pre (try_returning E body handler) w.
Proof.
  intros Hbody Hh. unfold try_returning.
  apply issues_bind.
  - apply issues_try_catch; [done|]. intros e.
    apply adds_bind; [apply Hh|]. intros _. apply adds_ret.
  - intros [c|]; [|apply adds_ret]. unfold tg_.
    apply adds_bind; [by apply adds_tg|]. intros _. apply adds_ret.
Qed.

(** After [m] has run, what [f] issues first comes next. *)
Lemma issues_after {A B} pre1 pre2 (m : M A) (f : A → M B) w a w1 :
  m w = (Ret a, w1) → trace w1 = (trace w ++ pre1)%list →
  issues pre2 (f a) w1 → issues (pre1 ++ pre2) (m ≫= f) w.
Proof.
  intros Hm Hw1 [l Hl]. exists l. rewrite bind_run, Hm, Hl, Hw1.
  by rewrite <- !app_assoc.
Qed.

(** The proxy sends its request first, whatever comes of it. *)
Lemma makeApiRequest_issues E c endpoint method data w :
  issues [EAxios (request_config c endpoint method data)]
    (makeApiRequest E (Some c) endpoint method data) w.
Proof.
  unfold issues. unfold_run.
  destruct (axios E _ _); cbn; [|by exists []].
  match goal with |- context [mongo_up E ?h] => destruct (mongo_up E h) end;
    cbn; eexists; rewrite <- app_assoc; reflexivity.
Qed.

(** A handler that answers the press, loads the credential and calls the
    proxy inside a [try]. *)
Lemma proxied_issues E ctx w c answer (call : option Client → M unit) endpoint method :
  telegram_ok E → store_up E → db w !! identity ctx = Some c →
  issues [EAxios (request_config c endpoint method JNull)]
    (call (Some c)) (after (after w (ETelegram answer))
                       (EMongo (FindOne (identity ctx)))) →
  issues [ETelegram answer; EMongo (FindOne (identity ctx));
          EAxios (request_config c endpoint method JNull)]
    (tg_ E answer;; client ← getClient E (identity ctx); call client) w.
Proof.
  intros Htg Hup Hdb Hcall.
  eapply (issues_after [ETelegram answer]
            [EMongo (FindOne (identity ctx));
             EAxios (request_config c endpoint method JNull)]);
    [by apply tg__run|done|].
  eapply (issues_after [EMongo (FindOne (identity ctx))]
            [EAxios (request_config c endpoint method JNull)]);
    [by apply getClient_run|done|].
  simpl. by rewrite Hdb.
Qed.

Ltac adds_any := intros; adds_auto; exact I.

Ltac first_request :=
  first
    [ apply issues_try_returning; [|adds_any]
    | apply issues_try_catch; [|adds_any] ];
  repeat (apply issues_bind; [|adds_any]);
  apply makeApiRequest_issues.

(** ** The confirm-delete press *)

(** As the handlers are registered, the presses of the delete and of the
    confirm button of a job are handled by the job detail handler. *)
Lemma route_delete_verbs ds :
  all_digits ds = true → ds ≠ "" →
  route actions ("delete_job_" +:+ ds) = Some (A_job_details, ["job_" +:+ ds; ds]) ∧
  route actions ("confirm_delete_job_" +:+ ds)
    = Some (A_job_details, ["job_" +:+ ds; ds]).
Proof.
  intros Hd Hne.
  pose proof (search_here _ _ _ (job_pattern_here _ Hd Hne)) as Hjob.
  split; unfold route, actions, trigger_exec;
    (change (String.eqb "jobs_list" _) with false); cbv iota;
    repeat (rewrite append_cons; rewrite search_skip by reflexivity);
    by rewrite Hjob.
Qed.





(** ** The API proxy *)

(** A request the backend answers, followed by a touch the store rejects:
    the caller gets the generic failure, not the answer, and the user who
    pressed [jobs_list] is shown an error. *)
Lemma C3_touch_failure_fails_the_call :
  axios flaky_store_env [] (request_config client7 "/stats" "GET" JNull)
    = AxiosOk (JObj [("data", JArr []);
                     ("pagination", JObj [("page", JNum 1); ("pages", JNum 0);
                                          ("total", JNum 0)])]) ∧
  makeApiRequest flaky_store_env (Some client7) "/stats" "GET" JNull world7
    = (Throw (ThrownVal generic_api_error),
       {| db := db world7;
          trace := [EAxios (request_config client7 "/stats" "GET" JNull);
                    EMongo (UpdateLastUsed "7" 1000)] |}) ∧
  trace (snd (bot flaky_store_env (CallbackQuery "jobs_list") press7 world7)) =
    [ETelegram (AnswerCbQuery (Some "👁️ Loading jobs...") false);
     EMongo (FindOne "7");
     EAxios (request_config client7 "/jobs?page=1&per_page=10" "GET" JNull);
     EMongo (UpdateLastUsed "7" 1000);
     ETelegram (EditMessageText "❌ Error: API request failed" None)].
Proof. repeat split; reflexivity. Qed.

(** C3 (amended). For a proxied call whose backend request succeeds, the
    touch of [lastUsed] is awaited inside the same [try]: the proxy returns
    the response body when the touch succeeds, and throws the generic
    [{error: 'API request failed'}] when the touch fails. *)
Theorem C3_touch_decides_result E c endpoint method data w body :
  axios E (trace w) (request_config c endpoint method data) = AxiosOk body →
  fst (makeApiRequest E (Some c) endpoint method data w) =
    if mongo_up E (trace w ++ [EAxios (request_config c endpoint method data)])
    then Ret body
    else Throw (ThrownVal generic_api_error).
Proof.
  intros Hax. unfold_run. rewrite Hax. cbn.
  by destruct (mongo_up E _).
Qed.

Lemma C3_touch_decides_result_witness :
  fst (makeApiRequest jobs_env (Some client7) "/stats" "GET" JNull world7)
    = Ret (JObj [("data", JArr []);
                 ("pagination", JObj [("page", JNum 1); ("pages", JNum 0);
                                      ("total", JNum 0)])]).
Proof.
  apply (C3_touch_decides_result jobs_env client7 "/stats" "GET" JNull world7).
  reflexivity.
Defined.

(** ** Handlers and the absent credential *)

(** The menu handlers check the credential: without one they answer with
    the "not onboarded" message and stop. *)
Lemma menu_hears_without_credential E title keyboard ctx w :
  telegram_ok E → store_up E → db w !! identity ctx = None →
  menu_hears E title keyboard ctx w =
    (Ret tt,
     {| db := db w;
        trace := trace w ++ [EMongo (FindOne (identity ctx));
                             ETelegram (Reply not_onboarded None)] |}).
Proof.
  intros Htg Hup Hdb. unfold menu_hears. unfold_run.
  exec Htg Hup. rewrite Hdb. by exec Htg Hup.
Qed.

(** C4. The button handlers do not check the credential. With Telegram
    and the store available, pressing [jobs_list] without a stored
    credential hands [null] to the API proxy, whose failure is rendered as
    [❌ Error: API request failed]; no HTTP request leaves the process, and
    the "not onboarded" message is not shown. Whatever the outside
    answers, no handler registered with [bot.action] sends that message to
    an identity without a credential. *)
Theorem C4_jobs_list_without_credential E ctx w :
  telegram_ok E → store_up E → db w !! identity ctx = None →
  bot E (CallbackQuery "jobs_list") ctx w =
    (Ret tt,
     {| db := db w;
        trace := trace w ++ [ETelegram (AnswerCbQuery (Some "👁️ Loading jobs...") false);
                             EMongo (FindOne (identity ctx));
                             ETelegram (EditMessageText "❌ Error: API request failed"
                                          None)] |}) ∧
  ∀ E' a ctx' w', db w' !! identity ctx' = None → ∃ l,
    trace (snd (action_handler E' a ctx' w')) = (trace w' ++ l)%list ∧
    Forall not_the_onboarding_notice l.
Proof.
  intros Htg Hup Hdb. split.
  - unfold bot, dispatch.
    change (route actions "jobs_list") with (Some (A_jobs_list, ["jobs_list"])).
    cbv beta iota. unfold action_handler, jobs_list.
    change (identity (with_match ctx ["jobs_list"])) with (identity ctx).
    unfold_run. exec Htg Hup. rewrite Hdb. by exec Htg Hup.
  - clear. intros E a ctx w Hdb.
    destruct a; simpl action_handler; unfold_handlers; unfold_run;
      repeat (cbn; rewrite <- ?app_assoc; cbn;
              match goal with
              | |- context [telegram ?E' ?h ?c] => destruct (telegram E' h c)
              | |- context [mongo_up ?E' ?h] => destruct (mongo_up E' h)
              | |- context [db w !! identity ctx] => rewrite Hdb
              end);
      cbn; rewrite <- ?app_assoc;
      (eexists; split; [reflexivity|]);
      repeat constructor; discriminate.
Qed.

Lemma C4_jobs_list_without_credential_witness :
  bot jobs_env (CallbackQuery "jobs_list") press7 world_empty =
    (Ret tt,
     {| db := ∅;
        trace := [ETelegram (AnswerCbQuery (Some "👁️ Loading jobs...") false);
                  EMongo (FindOne "7");
                  ETelegram (EditMessageText "❌ Error: API request failed" None)] |}).
Proof.
  apply (C4_jobs_list_without_credential jobs_env press7 world_empty).
  - intros h c. by eexists.
  - intros h. reflexivity.
  - reflexivity.
Defined.

(** ** Unmatched presses *)

(** The job menu renders a button whose identifier no trigger matches;
    pressing it, or the corresponding button of the target menu, makes the
    bot do nothing at all: no message is sent. *)
Lemma C5_create_buttons_get_no_answer :
  In [mkButton "➕ Create New Job" "jobs_create"]
     (match jobs_menu with InlineKeyboard rows => rows | _ => [] end) ∧
  bot jobs_env (CallbackQuery "jobs_create") press7 world7 = (Ret tt, world7) ∧
  bot jobs_env (CallbackQuery "targets_create") press7 world7 = (Ret tt, world7) ∧
  trace (snd (bot jobs_env (CallbackQuery "jobs_create") press7 world7)) = [].
Proof. repeat split; try reflexivity. simpl. auto. Qed.

(** C5 (amended). A button press whose identifier matches no registered
    trigger runs no handler: nothing is sent to the user, nothing is
    thrown, and the store is left as it was. *)
Theorem C5_unmatched_press_is_dropped E data ctx w :
  route actions data = None →
  bot E (CallbackQuery data) ctx w = (Ret tt, w).
Proof.
  intros Hroute. unfold bot, dispatch, try_catch. by rewrite Hroute.
Qed.

Lemma C5_unmatched_press_is_dropped_witness :
  bot jobs_env (CallbackQuery "target_4") press7 world7 = (Ret tt, world7).
Proof.
  apply (C5_unmatched_press_is_dropped jobs_env "target_4" press7 world7).
  reflexivity.
Defined.

(** ** Timeouts *)

(** Whatever its arguments, the request object of the proxy has no
    [timeout] key. *)
Lemma request_config_no_timeout c endpoint method data :
  cfg_timeout (request_config c endpoint method data) = JUndefined.
Proof. unfold request_config, cfg_timeout. simpl. by destruct (truthy data). Qed.

(** The request of a proxied call and the verification request of
    [/settoken] are both issued without any timeout. *)
Lemma C7_requests_carry_no_timeout :
  cfg_timeout (request_config client7 "/stats" "GET" JNull) = JUndefined ∧
  trace (snd (makeApiRequest jobs_env (Some client7) "/stats" "GET" JNull world7)) =
    [EAxios [("method", JStr "GET");
             ("url", JStr "http://api.test/v1/stats");
             ("headers", JObj [("Authorization", JStr "Bearer tok");
                               ("Content-Type", JStr "application/json")])];
     EMongo (UpdateLastUsed "7" 1000)] ∧
  In (EAxios [("method", JStr "GET");
              ("url", JStr "http://localhost:5000/api/v1/stats");
              ("headers", JObj [("Authorization", JStr "Bearer abc")])])
     (trace (snd (bot jobs_env (Message (Some "settoken")) settoken_abc world_empty))).
Proof. split; [reflexivity|]. split; [reflexivity|]. vm_compute. auto. Qed.

(** C7 (amended). No API proxy call sets a timeout: whatever the update
    and whatever the outside answers, every request the bot hands to axios,
    the verification request of [/settoken] included, leaves [timeout]
    unset, so that axios applies its default of no time limit. *)
Theorem C7_no_request_sets_a_timeout E u ctx w :
  ∃ l, trace (snd (bot E u ctx w)) = (trace w ++ l)%list ∧ Forall no_timeout l.
Proof.
  revert w. change (adds no_timeout (bot E u ctx)).
  unfold bot. apply adds_try_catch; [|intros ?; adds_auto; exact I].
  unfold dispatch. destruct u as [command|data].
  - destruct (route_message _ _ _) as [h|]; [|apply adds_ret].
    destruct h; simpl message_handler; adds_auto; try exact I; reflexivity.
  - destruct (route actions data) as [[a m]|]; [|apply adds_ret].
    destruct a; simpl action_handler; adds_auto; try exact I; reflexivity.
Qed.

(** ** The confirmation workflow *)

Lemma confirm_delete_account_run E ctx w :
  telegram_ok E → store_up E →
  confirm_delete_account E ctx w =
    (Ret tt,
     {| db := delete (identity ctx) (db w);
        trace := trace w ++
          [ETelegram (AnswerCbQuery (Some "👁️ Deleting account...") false);
           EMongo (DeleteOne (identity ctx));
           ETelegram (SetMessageReactionAt (chat_id ctx) (cb_message_id ctx) "👋");
           ETelegram (EditMessageText account_deleted_text None)] |}).
Proof.
  intros Htg Hup. unfold confirm_delete_account. unfold_run. by exec Htg Hup.
Qed.

Lemma cancel_delete_run E ctx w :
  telegram_ok E →
  cancel_delete E ctx w =
    (Ret tt,
     {| db := db w;
        trace := trace w ++
          [ETelegram (AnswerCbQuery (Some "Cancelled") false);
           ETelegram (EditMessageText cancel_delete_text None)] |}).
Proof.
  intros Htg. unfold cancel_delete. unfold_run.
  repeat (cbn; rewrite <- ?app_assoc; cbn;
          match goal with
          | |- context [telegram ?E' ?h ?c] => destruct (Htg h c) as [? ->]
          end).
  cbn. by rewrite <- ?app_assoc.
Qed.

(** The text of a failure screen is none of the texts of the deletion of
    a job. *)
Lemma error_text_is_no_deletion_text error fallback text :
  error_text error fallback = Ret text →
  text ≠ delete_job_prompt ∧ text ≠ job_deleted_text.
Proof.
  unfold error_text. destruct (to_string _) as [s|e]; [|done].
  intros [= <-]. split; discriminate.
Qed.

Lemma adds_bind_lift {A B} P (r : Res A) (f : A → M B) :
  (∀ a, r = Ret a → adds P (f a)) → adds P (lift r ≫= f).
Proof.
  intros Hf w. unfold mbind, M_bind, lift. destruct r as [a|e]; simpl.
  - by apply Hf.
  - exists []. split; [by rewrite app_nil_r | constructor].
Qed.

(** The job detail handler takes no step of the deletion of a job,
    whatever the press it is run for and whatever the outside answers. *)
Lemma job_details_deletes_nothing E ctx : adds no_job_deletion (job_details E ctx).
Proof.
  unfold job_details, tg_, getClient, makeApiRequest, prop, str.
  repeat first
    [ apply adds_try_catch; [|intros ?]
    | match goal with
      | |- adds _ (lift (error_text _ _) ≫= _) =>
          apply adds_bind_lift; intros text Htext
      end
    | adds_step ];
    try exact I; try reflexivity; try discriminate;
    try (split; discriminate);
    by (eapply error_text_is_no_deletion_text; eauto).
Qed.

(** The presses of the delete button and of the confirm button of job 3:
    each makes the bot load the details of the job; the confirmation
    screen is not rendered and no DELETE is sent. *)
Lemma C6_delete_presses_load_job_details :
  List.filter is_request
    (trace (snd (bot jobs_env (CallbackQuery "delete_job_3") press7 world7)))
  = [EAxios (request_config client7 "/jobs/3" "GET" JNull)] ∧
  List.filter is_request (trace (snd (bot jobs_env confirm_press3 press7 world7)))
  = [EAxios (request_config client7 "/jobs/3" "GET" JNull)] ∧
  last_screen (snd (bot jobs_env (CallbackQuery "delete_job_3") press7 world7))
  = last_screen (snd (bot jobs_env (CallbackQuery "job_3") press7 world7)) ∧
  last_screen (snd (bot jobs_env confirm_press3 press7 world7))
  = last_screen (snd (bot jobs_env (CallbackQuery "job_3") press7 world7)).
Proof. repeat split; reflexivity. Qed.

(** C6. The presses of the confirmation workflow, run through the bot.
    With Telegram and the store available, the confirm button of the
    account deletion deletes the credential, once, sends no request to the
    backend and ends on the success screen; the cancel button of the
    account deletion acknowledges and calls neither the backend nor the
    store. The workflow of the job deletion is not reached: as the
    handlers are registered, the press of the delete button and the press
    of the confirm button of a job are handled by the job detail handler.
    Whatever the outside answers, such a press renders neither the
    confirmation screen nor the success screen and sends no DELETE; with
    the credential stored, what it sends is the GET of the job. *)
Theorem C6_confirm_presses E ctx w :
  telegram_ok E → store_up E →
  bot E (CallbackQuery "confirm_delete_account") ctx w =
    (Ret tt,
     {| db := delete (identity ctx) (db w);
        trace := trace w ++
          [ETelegram (AnswerCbQuery (Some "👁️ Deleting account...") false);
           EMongo (DeleteOne (identity ctx));
           ETelegram (SetMessageReactionAt (chat_id ctx) (cb_message_id ctx) "👋");
           ETelegram (EditMessageText account_deleted_text None)] |}) ∧
  bot E (CallbackQuery "cancel_delete") ctx w =
    (Ret tt,
     {| db := db w;
        trace := trace w ++
          [ETelegram (AnswerCbQuery (Some "Cancelled") false);
           ETelegram (EditMessageText cancel_delete_text None)] |}) ∧
  ∀ ds press,
    all_digits ds = true → ds ≠ "" →
    In press ["delete_job_" +:+ ds; "confirm_delete_job_" +:+ ds] →
    (∀ E' w', ∃ l,
       trace (snd (bot E' (CallbackQuery press) ctx w')) = (trace w' ++ l)%list ∧
       Forall no_job_deletion l) ∧
    (∀ c, db w !! identity ctx = Some c →
          issues [ETelegram (AnswerCbQuery (Some "👁️ Loading job details...") false);
                  EMongo (FindOne (identity ctx));
                  EAxios (request_config c ("/jobs/" +:+ ds) "GET" JNull)]
            (bot E (CallbackQuery press) ctx) w).
Proof.
  intros Htg Hup. split; [|split].
  - unfold bot, dispatch.
    change (route actions "confirm_delete_account")
      with (Some (A_confirm_delete_account, ["confirm_delete_account"])).
    unfold try_catch. simpl action_handler.
    by rewrite confirm_delete_account_run.
  - unfold bot, dispatch.
    change (route actions "cancel_delete")
      with (Some (A_cancel_delete, ["cancel_delete"])).
    unfold try_catch. simpl action_handler.
    by rewrite cancel_delete_run.
  - intros ds press Hd Hne Hpress.
    destruct (route_delete_verbs ds Hd Hne) as [Hdelete Hconfirm].
    assert (Hroute : route actions press = Some (A_job_details, ["job_" +:+ ds; ds])).
    { simpl in Hpress. by destruct Hpress as [<-|[<-|[]]]. }
    split.
    + intros E'. change (adds no_job_deletion (bot E' (CallbackQuery press) ctx)).
      unfold bot, dispatch. rewrite Hroute. apply adds_try_catch.
      * apply job_details_deletes_nothing.
      * intros e. adds_auto. exact I.
    + intros c Hdb. unfold bot, dispatch. rewrite Hroute.
      apply issues_try_catch; [|adds_any]. simpl action_handler.
      apply (proxied_issues E (with_match ctx ["job_" +:+ ds; ds]) w c
               (AnswerCbQuery (Some "👁️ Loading job details...") false) _
               ("/jobs/" +:+ ds) "GET" Htg Hup Hdb).
      first_request.
Qed.

Lemma C6_confirm_presses_witness :
  bot jobs_env (CallbackQuery "confirm_delete_account") press7 world7 =
    (Ret tt,
     {| db := delete "7" (db world7);
        trace := [ETelegram (AnswerCbQuery (Some "👁️ Deleting account...") false);
                  EMongo (DeleteOne "7");
                  ETelegram (SetMessageReactionAt 70 5 "👋");
                  ETelegram (EditMessageText account_deleted_text None)] |}) ∧
  issues [ETelegram (AnswerCbQuery (Some "👁️ Loading job details...") false);
          EMongo (FindOne "7");
          EAxios (request_config client7 "/jobs/3" "GET" JNull)]
    (bot jobs_env confirm_press3 press7) world7.
Proof.
  assert (Htg : telegram_ok jobs_env) by (intros h c; by eexists).
  assert (Hup : store_up jobs_env) by (intros h; reflexivity).
  destruct (C6_confirm_presses jobs_env press7 world7 Htg Hup)
    as (Haccount & _ & Hjob).
  split; [exact Haccount|].
  destruct (Hjob "3" "confirm_delete_job_3") as [_ Hget];
    [reflexivity | discriminate | simpl; tauto |].
  by apply (Hget client7).
Defined.

(** ** Onboarding *)

(** C8. For an identity without a stored credential, when the
    verification request of the submitted token fails, the credential
    collection is the same after [/settoken] as before, so it still holds
    no record for the identity; the verification request itself never
    writes to the collection. *)
Theorem C8_failed_verification_persists_nothing E ctx w :
  db w !! identity ctx = None →
  (∀ token h, head (tail (split_space (message_text ctx))) = Some token →
              ∃ d, axios E h (testConfig E token) = AxiosFail d) →
  db (snd (bot E (Message (Some "settoken")) ctx w)) = db w ∧
  db (snd (bot E (Message (Some "settoken")) ctx w)) !! identity ctx = None ∧
  ∀ token w', db (snd (axios_call E (testConfig E token) w')) = db w'.
Proof.
  intros Hdb Hfail.
  assert (db (snd (bot E (Message (Some "settoken")) ctx w)) = db w) as Heq.
  { unfold bot, dispatch.
    change (route_message messages (Some "settoken") (message_text ctx))
      with (Some H_settoken).
    cbv beta iota. unfold message_handler, settoken.
    destruct (tail (split_space (message_text ctx))) as [|token rest] eqn:Hargs.
    - unfold_run. cbn.
      repeat (match goal with
              | |- context [telegram ?E' ?h ?c] => destruct (telegram E' h c)
              end; cbn); reflexivity.
    - specialize (Hfail token).
      unfold_run. cbn.
      repeat (match goal with
              | |- context [telegram ?E' ?h ?c] => destruct (telegram E' h c)
              | |- context [axios ?E' ?h ?c] => destruct (Hfail h eq_refl) as [? ->]
              end; cbn); reflexivity. }
  split; [done|]. split; [by rewrite Heq|].
  intros token w'. unfold axios_call. by destruct (axios E _ _).
Qed.

Lemma C8_failed_verification_persists_nothing_witness :
  db (snd (bot unreachable_env (Message (Some "settoken")) settoken_abc world_empty))
    !! "7" = None.
Proof.
  apply (C8_failed_verification_persists_nothing unreachable_env settoken_abc
           world_empty).
  - reflexivity.
  - intros token h _. by eexists.
Defined.



(** ** List views *)

(** An empty page short-circuits to the fixed screen of the view, in all
    four list views. *)
Lemma empty_page_short_circuits total :
  last_screen (snd (bot (paging_env [] total) (CallbackQuery "jobs_list") press7 world7))
    = Some (EditMessageText
              ("📭 No jobs found." +:+ nl +:+ nl +:+ "Create your first job!") None) ∧
  last_screen (snd (bot (paging_env [] total) (CallbackQuery "targets_list") press7
                      world7))
    = Some (EditMessageText "📭 No targets found." None) ∧
  last_screen (snd (bot (paging_env [] total) (CallbackQuery "leads_ready") press7
                      world7))
    = Some (EditMessageText "📭 No leads found." None) ∧
  last_screen (snd (bot (paging_env [] total) (Message None) (say "📈 Content Analysis")
                      world7))
    = Some (EditMessageTextAt 70 100 "📭 No content analysis data found.").
Proof. repeat split; reflexivity. Qed.

(** The job and lead views show the page position and the total. *)
Lemma jobs_and_leads_show_total :
  last_screen (snd (bot (paging_env [acme_job] (JNum 25)) (CallbackQuery "jobs_list")
                      press7 world7))
    = Some (EditMessageText
              ("📊 Jobs List (Page 1/3)" +:+ nl +:+ "📦 Total: 25" +:+ nl +:+ nl +:+
               "Select a job to view details:")
              (Some (InlineKeyboard [[mkButton "🏃 scrape" "job_9"];
                                     [mkButton "🔙 Back" "back_jobs"]]))) ∧
  last_screen (snd (bot (paging_env [acme_lead] (JNum 25)) (CallbackQuery "leads_all")
                      press7 world7))
    = Some (EditMessageText
              ("👥 Leads (Page 1/3)" +:+ nl +:+ "Total: 25" +:+ nl +:+ nl +:+
               "Select a lead:")
              (Some (InlineKeyboard [[mkButton "👤 bob (120 followers)" "lead_5"];
                                     [mkButton "🔙 Back" "back_leads"]]))).
Proof. split; reflexivity. Qed.

(** C9. The target view and the content analysis view render a non-empty
    page without its total: whatever total the backend reports, the target
    screen shows the page position only, and the content analysis screen
    shows a fixed page number 1 with the number of pages. *)
Theorem C9_targets_and_content_omit_the_total total :
  last_screen (snd (bot (paging_env [acme_target] total) (CallbackQuery "targets_list")
                      press7 world7))
    = Some (EditMessageText
              ("🎯 Targets (Page 1/3)" +:+ nl +:+ nl +:+ "Select a target:")
              (Some (InlineKeyboard [[mkButton "🎯 acme" "target_4"];
                                     [mkButton "🔙 Back" "back_targets"]]))) ∧
  last_screen (snd (bot (paging_env [acme_post] total) (Message None)
                      (say "📈 Content Analysis") world7))
    = Some (EditMessageTextAt 70 100
              ("📈 Content Analysis (Page 1/3)" +:+ nl +:+ nl +:+
               "1. 📱 instagram - @acme" +:+ nl +:+
               "   ❤️ Likes: 12" +:+ nl +:+
               "   💬 Comments: 3" +:+ nl +:+
               "   👁️ Views: 40" +:+ nl +:+
               "   📊 Engagement: 4.2" +:+ nl +:+ nl)).
Proof. split; reflexivity. Qed.

(** * Further properties *)

(** ** What a handler does to the collection *)

Section Keeps.

Variable J : gmap string Client → Prop.
Variable E : Env.

Lemma keeps_still {A} (Q : A → Prop) (m : M A) :
  (∀ w, snd (m w) = w) → (∀ w a, fst (m w) = Ret a → Q a) → keeps J Q m.
Proof. intros H HQ w Hw. rewrite H. split; [done|]. apply HQ. Qed.

Lemma keeps_ret {A} (Q : A → Prop) (a : A) : Q a → keeps J Q (mret a).
Proof. intros Ha. apply keeps_still; [done|]. by intros w a' [= <-]. Qed.

Lemma keeps_throw {A} (Q : A → Prop) e : keeps J Q (@throw A e).
Proof. by apply keeps_still. Qed.

Lemma keeps_lift {A} (r : Res A) : keeps J any (lift r).
Proof. by apply keeps_still. Qed.

Lemma keeps_new_Date : keeps J any (new_Date E).
Proof. by apply keeps_still. Qed.

Lemma keeps_get_db : keeps J J get_db.
Proof. intros w Hw. split; [done|]. by intros a [= <-]. Qed.

Lemma keeps_emit e : keeps J any (emit e).
Proof. by intros w Hw. Qed.

Lemma keeps_tg c : keeps J any (tg E c).
Proof. intros w Hw. unfold tg. by destruct (telegram E _ _). Qed.

Lemma keeps_axios cfg : keeps J any (axios_call E cfg).
Proof. intros w Hw. unfold axios_call. by destruct (axios E _ _). Qed.

Lemma keeps_mongo op : (∀ d, J d → J (apply_op op d)) → keeps J any (mongo E op).
Proof.
  intros H w Hw. unfold mongo. destruct (mongo_up E _); simpl; split; auto; done.
Qed.

Lemma keeps_bind {A B} (Q : A → Prop) (R : B → Prop) (m : M A) (f : A → M B) :
  keeps J Q m → (∀ a, Q a → keeps J R (f a)) → keeps J R (m ≫= f).
Proof.
  intros Hm Hf w Hw. destruct (Hm w Hw) as [H1 HQ].
  unfold mbind, M_bind. destruct (m w) as [[a|e] w1]; simpl in *; [|done].
  by apply Hf; auto.
Qed.

Lemma keeps_try_catch {A} (Q : A → Prop) (body : M A) (handler : Thrown → M A) :
  keeps J Q body → (∀ e, keeps J Q (handler e)) → keeps J Q (try_catch body handler).
Proof.
  intros Hm Hf w Hw. destruct (Hm w Hw) as [H1 HQ].
  unfold try_catch. destruct (body w) as [[a|e] w1]; simpl in *; [done|].
  by apply Hf.
Qed.

Lemma keeps_mapM {A} (f : JsVal → M A) xs :
  (∀ x, keeps J any (f x)) → keeps J any (mapM f xs).
Proof.
  intros Hf. induction xs as [|x xs IH]; simpl.
  - by apply keeps_ret.
  - eapply keeps_bind; [apply Hf|]. intros y _.
    eapply keeps_bind; [apply IH|]. intros ys _. by apply keeps_ret.
Qed.

Lemma keeps_content_lines idx items : keeps J any (content_lines E idx items).
Proof.
  revert idx. induction items as [|x xs IH]; intros idx; simpl.
  - by apply keeps_ret.
  - repeat (eapply keeps_bind; [apply keeps_lift|]; intros ? _).
    eapply keeps_bind; [apply IH|]. intros ? _. by apply keeps_ret.
Qed.

(** [getClient] returns what the collection holds, and the proxy touches
    the document named by the client it is given. *)
Lemma keeps_getClient id :
  (∀ d, J d → J (apply_op (FindOne id) d)) →
  keeps J (λ oc, ∃ d, J d ∧ oc = d !! id) (getClient E id).
Proof.
  intros HJ. unfold getClient.
  eapply keeps_bind; [by apply keeps_mongo|]. intros _ _.
  eapply keeps_bind; [apply keeps_get_db|]. intros d Hd.
  apply keeps_ret. eauto.
Qed.

Lemma keeps_makeApiRequest oc endpoint method data :
  (∀ c t d, oc = Some c → J d → J (apply_op (UpdateLastUsed (telegramId c) t) d)) →
  keeps J any (makeApiRequest E oc endpoint method data).
Proof.
  intros HJ. unfold makeApiRequest.
  apply keeps_try_catch; [|intros e; apply keeps_throw].
  destruct oc as [c|]; [|apply keeps_throw].
  eapply keeps_bind; [apply keeps_axios|]. intros response _.
  eapply keeps_bind; [apply keeps_new_Date|]. intros now _.
  eapply keeps_bind; [apply keeps_mongo; intros d Hd; by apply HJ|]. intros _ _.
  by apply keeps_ret.
Qed.

End Keeps.

Ltac keeps_post :=
  match goal with
  | |- @keeps _ ?A ?Q _ => is_evar Q; unify Q (@any A)
  | _ => idtac
  end.

(** Decompose a handler into its calls; what is left are the conditions
    on the store operations it can issue. *)
Ltac keeps_step :=
  match goal with
  | |- keeps _ _ (getClient _ _) => apply keeps_getClient
  | |- keeps _ _ (makeApiRequest _ _ _ _ _) => apply keeps_makeApiRequest
  | |- keeps _ _ (mbind _ _) => eapply keeps_bind; [|intros ? ?]
  | |- keeps _ _ (try_catch _ _) => eapply keeps_try_catch; [|intros ?]
  | |- keeps _ _ (mret _) => keeps_post; apply keeps_ret; try exact I
  | |- keeps _ _ (throw _) => apply keeps_throw
  | |- keeps _ _ (lift _) => apply keeps_lift
  | |- keeps _ _ get_db => apply keeps_get_db
  | |- keeps _ _ (new_Date _) => apply keeps_new_Date
  | |- keeps _ _ (emit _) => apply keeps_emit
  | |- keeps _ _ (tg _ _) => apply keeps_tg
  | |- keeps _ _ (axios_call _ _) => apply keeps_axios
  | |- keeps _ _ (mongo _ _) => apply keeps_mongo
  | |- keeps _ _ (mapM _ _) => apply keeps_mapM; intros ?
  | |- keeps _ _ (content_lines _ _ _) => apply keeps_content_lines
  | |- keeps _ _ (match ?x with _ => _ end) => keeps_post; destruct x eqn:?
  end.

Ltac unfold_handlers_keeping_helpers :=
  unfold start, settoken, seturl, hears_jobs, hears_targets, hears_leads,
    menu_hears, hears_statistics, stats_message, hears_content_analysis,
    hears_settings, deleteaccount, hears_cancel, jobs_list, job_details, run_job,
    delete_job, confirm_delete_job, targets_list, leads_list, lead_details,
    confirm_delete_account, cancel_delete, back_menu, back_jobs, back_targets,
    back_leads, back_to, js_map, job_button, target_button, lead_button;
  unfold try_returning, reactToMessage, tg_, prop, str.

Ltac keeps_auto := unfold_handlers_keeping_helpers; repeat keeps_step.

Lemma touch_same_credentials d0 d id t :
  same_credentials d0 d → same_credentials d0 (apply_op (UpdateLastUsed id t) d).
Proof.
  intros H id'. rewrite <- H. simpl. destruct (decide (id = id')) as [->|Hne].
  - rewrite lookup_alter_eq. by destruct (d !! id').
  - by rewrite lookup_alter_ne.
Qed.

(** X1. Whatever the outside answers, only [/settoken], [/seturl] and the
    confirmed account deletion change a stored credential: every other
    handler leaves the token, the base URL and the creation date of every
    document as they were, and creates or removes none; at most it
    refreshes [lastUsed]. *)
Theorem X1_only_three_handlers_change_credentials E ctx w :
  (∀ h, h ≠ H_settoken → h ≠ H_seturl →
        same_credentials (db w) (db (snd (message_handler E h ctx w)))) ∧
  (∀ a, a ≠ A_confirm_delete_account →
        same_credentials (db w) (db (snd (action_handler E a ctx w)))).
Proof.
  assert (Hrefl : same_credentials (db w) (db w)) by done.
  split.
  - intros h Hh1 Hh2.
    cut (keeps (same_credentials (db w)) any (message_handler E h ctx)).
    { intros H. by apply H. }
    destruct h; try done; simpl message_handler; keeps_auto;
      try (intros; done); by (intros; apply touch_same_credentials).
  - intros a Ha.
    cut (keeps (same_credentials (db w)) any (action_handler E a ctx)).
    { intros H. by apply H. }
    destruct a; try done; simpl action_handler; keeps_auto;
      try (intros; done); by (intros; apply touch_same_credentials).
Qed.

Lemma X1_only_three_handlers_change_credentials_witness :
  same_credentials (db world7)
    (db (snd (message_handler jobs_env H_statistics (say "📉 Statistics") world7))) ∧
  same_credentials (db world7)
    (db (snd (action_handler jobs_env A_jobs_list press7 world7))).
Proof.
  destruct (X1_only_three_handlers_change_credentials jobs_env press7 world7)
    as [_ Ha].
  destruct (X1_only_three_handlers_change_credentials jobs_env (say "📉 Statistics")
              world7) as [Hm _].
  split; [apply Hm; discriminate | apply Ha; discriminate].
Defined.

(** ** What a handler adds, from a collection that satisfies an invariant *)

Section Guarded.

Variable J : gmap string Client → Prop.
Variable P : Effect → Prop.
Variable E : Env.

Lemma guarded_intro {A} (Q : A → Prop) (m : M A) :
  keeps J Q m → adds P m → guarded J P Q m.
Proof. intros Hk Ha w Hw. destruct (Hk w Hw). repeat split; auto. Qed.

Lemma guarded_bind {A B} (Q : A → Prop) (R : B → Prop) (m : M A) (f : A → M B) :
  guarded J P Q m → (∀ a, Q a → guarded J P R (f a)) → guarded J P R (m ≫= f).
Proof.
  intros Hm Hf w Hw. destruct (Hm w Hw) as (H1 & (l1 & Hl1 & HP1) & HQ).
  unfold mbind, M_bind. destruct (m w) as [[a|e] w1]; simpl in *.
  - destruct (Hf a (HQ a eq_refl) w1 H1) as (H2 & (l2 & Hl2 & HP2) & HR).
    split; [done|]. split; [|done].
    exists (l1 ++ l2)%list. split; [|by apply Forall_app].
    by rewrite Hl2, Hl1, app_assoc.
  - split; [done|]. split; [by exists l1|done].
Qed.

Lemma guarded_try_catch {A} (Q : A → Prop) (body : M A) (handler : Thrown → M A) :
  guarded J P Q body → (∀ e, guarded J P Q (handler e)) →
  guarded J P Q (try_catch body handler).
Proof.
  intros Hm Hf w Hw. destruct (Hm w Hw) as (H1 & (l1 & Hl1 & HP1) & HQ).
  unfold try_catch. destruct (body w) as [[a|e] w1]; simpl in *.
  - split; [done|]. split; [by exists l1|done].
  - destruct (Hf e w1 H1) as (H2 & (l2 & Hl2 & HP2) & HR).
    split; [done|]. split; [|done].
    exists (l1 ++ l2)%list. split; [|by apply Forall_app].
    by rewrite Hl2, Hl1, app_assoc.
Qed.

Lemma guarded_mapM {A} (f : JsVal → M A) xs :
  (∀ x, guarded J P any (f x)) → guarded J P any (mapM f xs).
Proof.
  intros Hf. induction xs as [|x xs IH]; simpl.
  - apply guarded_intro; [by apply keeps_ret | apply adds_ret].
  - eapply guarded_bind; [apply Hf|]. intros y _.
    eapply guarded_bind; [apply IH|]. intros ys _.
    apply guarded_intro; [by apply keeps_ret | apply adds_ret].
Qed.

Lemma guarded_getClient id :
  (∀ d, J d → J (apply_op (FindOne id) d)) → P (EMongo (FindOne id)) →
  guarded J P (λ oc, ∃ d, J d ∧ oc = d !! id) (getClient E id).
Proof.
  intros HJ HP. apply guarded_intro; [by apply keeps_getClient|].
  unfold getClient. apply adds_bind; [by apply adds_mongo|]. intros _.
  apply adds_bind; [apply adds_get_db|]. intros d. apply adds_ret.
Qed.

(** The proxy sends the request built from the client it is given, and
    none when it is given [null]. *)
Lemma guarded_makeApiRequest oc endpoint method data :
  (∀ c, oc = Some c → P (EAxios (request_config c endpoint method data))) →
  (∀ c t, oc = Some c → P (EMongo (UpdateLastUsed (telegramId c) t))) →
  (∀ c t d, oc = Some c → J d → J (apply_op (UpdateLastUsed (telegramId c) t) d)) →
  guarded J P any (makeApiRequest E oc endpoint method data).
Proof.
  intros Hreq Htouch HJ. apply guarded_intro; [by apply keeps_makeApiRequest|].
  unfold makeApiRequest.
  apply adds_try_catch; [|intros e; apply adds_throw].
  destruct oc as [c|]; [|apply adds_throw].
  apply adds_bind; [by apply adds_axios, Hreq|]. intros response.
  apply adds_bind; [apply adds_new_Date|]. intros now.
  apply adds_bind; [by apply adds_mongo, Htouch|]. intros _. apply adds_ret.
Qed.

End Guarded.

Ltac guarded_post :=
  match goal with
  | |- @guarded _ _ ?A ?Q _ => is_evar Q; unify Q (@any A)
  | _ => idtac
  end.

Ltac guarded_step :=
  match goal with
  | |- guarded _ _ _ (getClient _ _) => apply guarded_getClient
  | |- guarded _ _ _ (makeApiRequest _ _ _ _ _) => apply guarded_makeApiRequest
  | |- guarded _ _ _ (mbind _ _) => eapply guarded_bind; [|intros ? ?]
  | |- guarded _ _ _ (try_catch _ _) => eapply guarded_try_catch; [|intros ?]
  | |- guarded _ _ _ (mapM _ _) => apply guarded_mapM; intros ?
  | |- guarded _ _ _ (match ?x with _ => _ end) => guarded_post; destruct x eqn:?
  | |- guarded _ _ _ _ => guarded_post; apply guarded_intro; [keeps_step | adds_step]
  end.

Ltac guarded_auto := unfold_handlers_keeping_helpers; repeat guarded_step.

(** ** One identity at a time *)

Lemma only_touched_op id d0 op d :
  op_key op = id → only_touched id d0 d → only_touched id d0 (apply_op op d).
Proof.
  intros <- [Hkey Hframe]. destruct op as [id|id t|id u|id tok u t|id]; simpl.
  - done.
  - split.
    + intros id' c. destruct (decide (id = id')) as [->|Hne].
      * rewrite lookup_alter_eq. destruct (d !! id') as [c'|] eqn:Hc; [|done].
        intros [= <-]. simpl. by apply Hkey.
      * rewrite lookup_alter_ne by done. apply Hkey.
    + intros id' Hne. rewrite lookup_alter_ne by done. by apply Hframe.
  - split.
    + intros id' c. destruct (decide (id = id')) as [->|Hne].
      * rewrite lookup_alter_eq. destruct (d !! id') as [c'|] eqn:Hc; [|done].
        intros [= <-]. simpl. by apply Hkey.
      * rewrite lookup_alter_ne by done. apply Hkey.
    + intros id' Hne. rewrite lookup_alter_ne by done. by apply Hframe.
  - split.
    + intros id' c. destruct (decide (id = id')) as [->|Hne].
      * rewrite lookup_insert_eq. by intros [= <-].
      * rewrite lookup_insert_ne by done. apply Hkey.
    + intros id' Hne. rewrite lookup_insert_ne by done. by apply Hframe.
  - split.
    + intros id' c. destruct (decide (id = id')) as [->|Hne].
      * by rewrite lookup_delete_eq.
      * rewrite lookup_delete_ne by done. apply Hkey.
    + intros id' Hne. rewrite lookup_delete_ne by done. by apply Hframe.
Qed.

Lemma only_touched_client id d0 oc c t d :
  (∃ d', only_touched id d0 d' ∧ oc = d' !! id) → oc = Some c →
  only_touched id d0 d →
  only_touched id d0 (apply_op (UpdateLastUsed (telegramId c) t) d).
Proof.
  intros (d1 & [Hkey _] & ->) Hc Hd.
  apply only_touched_op; [|done]. simpl. by apply Hkey.
Qed.

Lemma only_touched_key id d0 oc c :
  (∃ d', only_touched id d0 d' ∧ oc = d' !! id) → oc = Some c → telegramId c = id.
Proof. intros (d1 & [Hkey _] & ->) Hc. by apply Hkey. Qed.

Ltac only_touched_side :=
  intros; cbv beta in *;
  first
    [ exact I
    | by (apply only_touched_op; [reflexivity|])
    | by (eapply only_touched_client; eauto)
    | by (simpl; eapply only_touched_key; eauto)
    | done ].

Lemma handlers_touch_one_identity E ctx d0 :
  (∀ h, guarded (only_touched (identity ctx) d0) (addressed_to (identity ctx)) any
          (message_handler E h ctx)) ∧
  (∀ a m, guarded (only_touched (identity ctx) d0) (addressed_to (identity ctx)) any
            (action_handler E a (with_match ctx m))).
Proof.
  split.
  - intros h. destruct h; simpl message_handler; guarded_auto; only_touched_side.
  - intros a m.
    change (identity ctx) with (identity (with_match ctx m)).
    generalize (with_match ctx m). clear ctx m. intros ctx.
    destruct a; simpl action_handler; guarded_auto; only_touched_side.
Qed.

(** X2. Whatever the update and whatever the outside answers, the bot
    reads and writes the document of the sender only. Every operation it
    issues on the collection, the reads included, is addressed to the
    identity of the sender; and starting from a collection in which every
    document is stored under its own [telegramId], it ends in such a
    collection, in which the document of every other identity is what it
    was. *)
Theorem X2_credential_isolation E u ctx w :
  well_keyed (db w) →
  well_keyed (db (snd (bot E u ctx w))) ∧
  (∀ id', id' ≠ identity ctx → db (snd (bot E u ctx w)) !! id' = db w !! id') ∧
  ∃ l, trace (snd (bot E u ctx w)) = (trace w ++ l)%list ∧
       Forall (addressed_to (identity ctx)) l.
Proof.
  intros Hw.
  cut (guarded (only_touched (identity ctx) (db w)) (addressed_to (identity ctx)) any
         (bot E u ctx)).
  { intros H. destruct (H w) as ([Hkey Hframe] & Htrace & _); [by split|]. done. }
  destruct (handlers_touch_one_identity E ctx (db w)) as [Hm Ha].
  unfold bot. apply guarded_try_catch.
  - unfold dispatch. destruct u as [command|data].
    + destruct (route_message _ _ _) as [h|]; [apply Hm|].
      apply guarded_intro; [by apply keeps_ret|apply adds_ret].
    + destruct (route actions data) as [[a m]|]; [apply Ha|].
      apply guarded_intro; [by apply keeps_ret|apply adds_ret].
  - intros e. guarded_auto. exact I.
Qed.

Lemma X2_credential_isolation_witness :
  db (snd (bot jobs_env (CallbackQuery "confirm_delete_account") press7 world7))
    !! "8" = db world7 !! "8" ∧
  ∃ l, trace (snd (bot jobs_env (CallbackQuery "confirm_delete_account") press7 world7))
         = (trace world7 ++ l)%list ∧
       Forall (addressed_to "7") l.
Proof.
  destruct (X2_credential_isolation jobs_env (CallbackQuery "confirm_delete_account")
              press7 world7) as (_ & Hframe & Htrace).
  - intros id c. unfold world7. simpl.
    destruct (decide (id = "7")) as [->|Hne].
    + rewrite lookup_singleton_eq. by intros [= <-].
    + by rewrite lookup_singleton_ne.
  - split; [apply Hframe; discriminate|exact Htrace].
Defined.

(** ** More on routing *)

Lemma search_tail t c s : is_Some (search t s) → is_Some (search t (String c s)).
Proof. intros H. simpl. by destruct (match_here t (String c s)). Qed.

Lemma match_here_digits_cons c lit s m :
  match_here (TDigits (String c lit)) s = Some m →
  ∃ s' m', s = String c s' ∧ match_here (TDigits lit) s' = Some m'.
Proof.
  unfold match_here. destruct s as [|b s]; simpl; [done|].
  destruct (Ascii.eqb_spec c b) as [<-|_]; [|done].
  destruct (strip_prefix lit s) as [rest|] eqn:Hstrip; [|done].
  destruct (String.eqb (take_digits rest) "") eqn:Hds; [done|].
  intros _. eexists s, _. split; [done|]. by rewrite Hstrip, Hds.
Qed.

(** A pattern with a longer literal matches only where the pattern with
    the end of that literal occurs. *)
Lemma match_here_digits_longer p lit s :
  is_Some (match_here (TDigits (p +:+ lit)) s) → is_Some (search (TDigits lit) s).
Proof.
  revert s. induction p as [|c p IH]; intros s [m Hm].
  - exists m. by apply search_here.
  - apply match_here_digits_cons in Hm as (s' & m' & -> & Hm').
    apply search_tail, IH. eauto.
Qed.

Lemma search_unfold t s :
  search t s =
    match match_here t s with
    | Some m => Some m
    | None => match s with
              | EmptyString => None
              | String _ rest => search t rest
              end
    end.
Proof. by destruct s. Qed.

Lemma search_digits_longer p lit s :
  is_Some (search (TDigits (p +:+ lit)) s) → is_Some (search (TDigits lit) s).
Proof.
  induction s as [|c s IH]; intros H; rewrite search_unfold in H.
  - destruct (match_here (TDigits (p +:+ lit)) "") as [m|] eqn:Hm.
    + apply (match_here_digits_longer p). rewrite Hm. by exists m.
    + by destruct H.
  - destruct (match_here (TDigits (p +:+ lit)) (String c s)) as [m|] eqn:Hm.
    + apply (match_here_digits_longer p). rewrite Hm. by exists m.
    + apply search_tail, IH, H.
Qed.

Lemma search_digits_longer_None p lit s :
  search (TDigits lit) s = None → search (TDigits (p +:+ lit)) s = None.
Proof.
  intros Hnone. destruct (search (TDigits (p +:+ lit)) s) eqn:Hs; [|done].
  destruct (search_digits_longer p lit s) as [m Hm]; [by rewrite Hs|].
  congruence.
Qed.

(** The handlers of [run_job_], [delete_job_] and [confirm_delete_job_]
    are chosen for no callback data at all. *)
Lemma route_never_reaches_job_verbs data a m :
  route actions data = Some (a, m) →
  a ≠ A_run_job ∧ a ≠ A_delete_job ∧ a ≠ A_confirm_delete_job.
Proof.
  unfold route, actions.
  destruct (trigger_exec (TExact "jobs_list") data); [by intros [= <- _]|].
  unfold trigger_exec at 1.
  destruct (search (TDigits "job_") data) eqn:Hjob; [by intros [= <- _]|].
  assert (Hrun : search (TDigits "run_job_") data = None)
    by exact (search_digits_longer_None "run_" "job_" data Hjob).
  assert (Hdel : search (TDigits "delete_job_") data = None)
    by exact (search_digits_longer_None "delete_" "job_" data Hjob).
  assert (Hconf : search (TDigits "confirm_delete_job_") data = None)
    by exact (search_digits_longer_None "confirm_delete_" "job_" data Hjob).
  unfold trigger_exec at 1. rewrite Hrun.
  unfold trigger_exec at 1. rewrite Hdel.
  unfold trigger_exec at 1. rewrite Hconf.
  repeat (match goal with
          | |- context [trigger_exec ?t data] =>
              destruct (trigger_exec t data); [by intros [= <- _]|]
          end).
  done.
Qed.

(** X3. Whatever the update and whatever the outside answers, every
    request the bot sends to the backend is a GET: as the handlers are
    registered, no press and no message makes it send the POST that runs a
    job or the DELETE that removes one. *)
Theorem X3_bot_only_sends_get E u ctx w :
  ∃ l, trace (snd (bot E u ctx w)) = (trace w ++ l)%list ∧ Forall get_only l.
Proof.
  revert w. change (adds get_only (bot E u ctx)).
  unfold bot. apply adds_try_catch; [|intros ?; adds_auto; exact I].
  unfold dispatch. destruct u as [command|data].
  - destruct (route_message _ _ _) as [h|]; [|apply adds_ret].
    destruct h; simpl message_handler; adds_auto; try exact I; reflexivity.
  - destruct (route actions data) as [[a m]|] eqn:Hroute; [|apply adds_ret].
    destruct (route_never_reaches_job_verbs _ _ _ Hroute) as (Hrun & Hdel & Hconf).
    destruct a; try done; simpl action_handler; adds_auto; try exact I; reflexivity.
Qed.

(** A literal that starts with a character that is not a digit occurs
    nowhere in a string of digits. *)
Lemma strip_prefix_digits c lit s :
  is_digit c = false → all_digits s = true → strip_prefix (String c lit) s = None.
Proof.
  intros Hc Hs. destruct s as [|b s]; simpl; [done|].
  apply andb_true_iff in Hs as [Hb _].
  destruct (Ascii.eqb_spec c b) as [->|_]; [congruence|done].
Qed.

Lemma search_digits_in_digits c lit s :
  is_digit c = false → all_digits s = true → search (TDigits (String c lit)) s = None.
Proof.
  intros Hc. induction s as [|b s IH]; intros Hs; rewrite search_unfold;
    unfold match_here; rewrite strip_prefix_digits by done; [done|].
  apply andb_true_iff in Hs as [_ Hs]. by apply IH.
Qed.

Lemma search_alt_in_digits c lit alts s :
  is_digit c = false → all_digits s = true →
  search (TAlt (String c lit) alts) s = None.
Proof.
  intros Hc. induction s as [|b s IH]; intros Hs; rewrite search_unfold;
    unfold match_here; rewrite strip_prefix_digits by done; [done|].
  apply andb_true_iff in Hs as [_ Hs]. by apply IH.
Qed.

Lemma append_nil s : "" +:+ s = s.
Proof. reflexivity. Qed.

Lemma strip_prefix_append lit s : strip_prefix lit (lit +:+ s) = Some s.
Proof.
  induction lit as [|c lit IH]; simpl; [by destruct s|].
  by rewrite Ascii.eqb_refl.
Qed.

(** What [/<literal>(\d+)/] finds at [<literal><id>]. *)
Lemma digits_pattern_here lit ds :
  all_digits ds = true → ds ≠ "" →
  match_here (TDigits lit) (lit +:+ ds) = Some [lit +:+ ds; ds].
Proof.
  intros Hd Hne. unfold match_here. rewrite strip_prefix_append.
  rewrite (take_digits_all _ Hd). by rewrite (eqb_nonempty _ Hne).
Qed.

(** Resolve the triggers that do not match a callback data made of a
    literal and digits: the exact ones by comparison, the patterns by
    walking through the literal and then through the digits. *)
Ltac expose_literal := rewrite ?append_cons, ?append_nil.

Ltac skip_search :=
  repeat match goal with
         | |- context [search ?t (String ?c ?s)] =>
             rewrite (search_skip t c s) by reflexivity
         end.

Ltac no_exact :=
  repeat match goal with
         | |- context [String.eqb ?a ?b] => change (String.eqb a b) with false
         end; cbv iota.

(** An identifier of the lead list is routed to the lead detail handler
    with its id. *)
Lemma route_lead ds :
  all_digits ds = true → ds ≠ "" →
  route actions ("lead_" +:+ ds) = Some (A_lead_details, ["lead_" +:+ ds; ds]).
Proof.
  intros Hd Hne.
  pose proof (search_here _ _ _ (digits_pattern_here "lead_" ds Hd Hne)) as Hlead.
  unfold route, actions, trigger_exec. revert Hlead.
  expose_literal. intros Hlead. rewrite Hlead. no_exact. skip_search.
  rewrite !search_digits_in_digits by done.
  by rewrite search_alt_in_digits by done.
Qed.

(** An identifier of the target list matches no trigger. *)
Lemma route_target ds :
  all_digits ds = true → route actions ("target_" +:+ ds) = None.
Proof.
  intros Hd. unfold route, actions, trigger_exec.
  expose_literal. no_exact. skip_search.
  rewrite !search_digits_in_digits by done.
  by rewrite search_alt_in_digits by done.
Qed.

(** ** Numeric ids *)

Lemma is_digit_pretty_N_char x : is_digit (pretty_N_char x) = true.
Proof. unfold pretty_N_char. by repeat case_match. Qed.

Lemma pretty_N_go_digits x s :
  all_digits s = true → s ≠ "" →
  all_digits (pretty_N_go x s) = true ∧ pretty_N_go x s ≠ "".
Proof.
  revert s. induction (N.lt_wf_0 x) as [x _ IH]; intros s Hs Hne.
  assert (x = 0 ∨ 0 < x)%N as [->|Hx] by lia.
  - by rewrite pretty_N_go_0.
  - rewrite pretty_N_go_step by done. apply IH.
    + by apply N.div_lt.
    + simpl. by rewrite is_digit_pretty_N_char.
    + done.
Qed.

(** The decimal form of a natural number is a non-empty string of
    digits. *)
Lemma pretty_digits (n : Z) :
  0 ≤ n → all_digits (pretty n) = true ∧ pretty n ≠ "".
Proof.
  intros Hn. destruct n as [|p|p]; [done| |lia].
  unfold pretty, pretty_Z, pretty, pretty_positive, pretty, pretty_N.
  destruct (decide (N.pos p = 0%N)) as [|_]; [done|].
  rewrite pretty_N_go_step by lia. apply pretty_N_go_digits; [|done].
  simpl. by rewrite is_digit_pretty_N_char.
Qed.

(** X4. The rows of the target list cannot be opened. For a target whose
    id is a number of the range in which numbers are printed digit by
    digit (a non-negative safe integer), and whose identifier can be
    printed, the row carries [target_<id>], an identifier no handler is
    registered for, and pressing it makes the bot do nothing at all,
    whatever the outside would answer. *)
Theorem X4_target_rows_are_dead E target n ctx w :
  get_prop target "id" = Ret (JNum n) → 0 ≤ n ≤ max_safe_integer →
  unprintable (prop_of target "identifier") = false →
  ∃ b, target_button target w = (Ret [b], w) ∧
       callback_data b = "target_" +:+ pretty n ∧
       bot E (CallbackQuery (callback_data b)) ctx w = (Ret tt, w).
Proof.
  intros Hid Hn Hident. destruct (pretty_digits n (proj1 Hn)) as [Hd _].
  assert (Htarget : nullish target = false) by (by destruct target).
  assert (Hdata : prop_of target "id" = JNum n) by (unfold prop_of; by rewrite Hid).
  eexists. split; [|split].
  - unfold target_button.
    rewrite bind_run, prop_run by done. rewrite bind_run, str_run by done.
    rewrite bind_run, prop_run by done. rewrite bind_run, str_run by (by rewrite Hdata).
    reflexivity.
  - simpl callback_data. rewrite Hdata, to_str_safe; [done|].
    unfold max_safe_integer in *. lia.
  - simpl callback_data. rewrite Hdata, to_str_safe
      by (unfold max_safe_integer in *; lia).
    unfold bot, dispatch, try_catch. by rewrite (route_target _ Hd).
Qed.

Lemma X4_target_rows_are_dead_witness :
  ∃ b, target_button acme_target world7 = (Ret [b], world7) ∧
       callback_data b = "target_4" ∧
       bot jobs_env (CallbackQuery (callback_data b)) press7 world7 = (Ret tt, world7).
Proof.
  apply (X4_target_rows_are_dead jobs_env acme_target 4 press7 world7);
    [reflexivity | unfold max_safe_integer; lia | reflexivity].
Defined.

(** ** The first request of a handler *)



(** ** The API proxy, continued *)

Lemma makeApiRequest_ok E c endpoint method data w body :
  store_up E →
  axios E (trace w) (request_config c endpoint method data) = AxiosOk body →
  makeApiRequest E (Some c) endpoint method data w =
    (Ret body,
     {| db := apply_op
                (UpdateLastUsed (telegramId c)
                   (clock E (trace w ++ [EAxios (request_config c endpoint method data)])))
                (db w);
        trace := trace w ++
          [EAxios (request_config c endpoint method data);
           EMongo (UpdateLastUsed (telegramId c)
                     (clock E (trace w ++
                                 [EAxios (request_config c endpoint method data)])))] |}).
Proof.
  intros Hup Hax. unfold_run. rewrite Hax. cbn. rewrite Hup. cbn.
  by rewrite <- app_assoc.
Qed.

(** X6. When the backend request fails, the proxy does not touch
    [lastUsed]: the collection is left as it was, nothing but the request
    is added to the trace, and what is thrown is the error payload of the
    backend when there is one (a truthy [error.response.data]), the generic
    [{error: 'API request failed'}] otherwise. *)
Theorem X6_failed_request_is_not_a_use E c endpoint method data w d :
  axios E (trace w) (request_config c endpoint method data) = AxiosFail d →
  makeApiRequest E (Some c) endpoint method data w =
    (Throw (ThrownVal (if truthy d then d else generic_api_error)),
     {| db := db w;
        trace := trace w ++ [EAxios (request_config c endpoint method data)] |}).
Proof. intros Hax. unfold_run. by rewrite Hax. Qed.

Lemma X6_failed_request_is_not_a_use_witness :
  makeApiRequest unreachable_env (Some client7) "/stats" "GET" JNull world7 =
    (Throw (ThrownVal generic_api_error),
     {| db := db world7;
        trace := [EAxios (request_config client7 "/stats" "GET" JNull)] |}).
Proof.
  apply (X6_failed_request_is_not_a_use unreachable_env client7 "/stats" "GET" JNull
           world7 JUndefined).
  reflexivity.
Defined.

(** X7. Whatever the client, the arguments and the outside, the proxy
    never lets an exception of axios, of the store or of the language
    through: what it throws is a plain value that is truthy, so that the
    [catch] blocks of the handlers can read [error.error] from it. *)
Theorem X7_proxy_throws_plain_values E client endpoint method data w e :
  fst (makeApiRequest E client endpoint method data w) = Throw e →
  ∃ v, e = ThrownVal v ∧ truthy v = true.
Proof.
  unfold_run. destruct client as [c|]; cbn.
  - destruct (axios E _ _) as [body|d]; cbn.
    + match goal with |- context [mongo_up E ?h] => destruct (mongo_up E h) end;
        cbn; [done|]. intros [= <-]. by eexists.
    + intros [= <-]. eexists. split; [done|].
      unfold js_or. by destruct (truthy d) eqn:Hd.
  - intros [= <-]. by eexists.
Qed.

Lemma X7_proxy_throws_plain_values_witness :
  ∃ v, ThrownVal generic_api_error = ThrownVal v ∧ truthy v = true.
Proof.
  apply (X7_proxy_throws_plain_values jobs_env None "/stats" "GET" JNull world7).
  reflexivity.
Defined.

(** ** Lead details *)

Lemma get_prop_type_errors v k : type_errors_only (get_prop v k).
Proof. intros e. by destruct v; intros [= <-]. Qed.

Lemma to_string_type_errors v : type_errors_only (to_string v).
Proof. intros e. unfold to_string. by destruct (unprintable v); intros [= <-]. Qed.

Lemma locale_or_0_type_errors E v : type_errors_only (locale_or_0 E v).
Proof.
  intros e. unfold locale_or_0.
  destruct v; try done; by destruct (to_locale_string E _); intros [= <-].
Qed.

Lemma fails_quietly_throw {A} e :
  error_prop e = JUndefined → fails_quietly (@throw A e).
Proof. intros He w. by exists e. Qed.

Lemma fails_quietly_lift {A B} (r : Res A) (f : A → M B) :
  type_errors_only r → (∀ a, fails_quietly (f a)) → fails_quietly (lift r ≫= f).
Proof.
  intros Hr Hf w. rewrite bind_run. unfold lift. destruct r as [a|e].
  - apply Hf.
  - exists e. split; [done|]. by rewrite (Hr e eq_refl).
Qed.

(** A caught value without a property [error] is rendered with the text
    the handler keeps for the case. *)
Lemma error_text_fallback e fallback :
  error_prop e = JUndefined → error_text e fallback = Ret ("❌ Error: " +:+ fallback).
Proof. intros He. unfold error_text. by rewrite He. Qed.

(** The [try] block of the lead detail handler cannot complete: once the
    backend has answered it ends in a TypeError or in the ReferenceError of
    the undeclared [type], and neither has a property [error]. *)
Lemma lead_details_run E ctx w c body :
  telegram_ok E → store_up E → db w !! identity ctx = Some c →
  axios E
    (trace w ++ [ETelegram (AnswerCbQuery (Some "👁️ Loading lead details...") false);
                 EMongo (FindOne (identity ctx))])
    (request_config c ("/leads/" +:+ to_str (match1 ctx)) "GET" JNull) = AxiosOk body →
  ∃ t,
    lead_details E ctx w =
      (Ret tt,
       {| db := apply_op (UpdateLastUsed (telegramId c) t) (db w);
          trace := trace w ++
            [ETelegram (AnswerCbQuery (Some "👁️ Loading lead details...") false);
             EMongo (FindOne (identity ctx));
             EAxios (request_config c ("/leads/" +:+ to_str (match1 ctx)) "GET" JNull);
             EMongo (UpdateLastUsed (telegramId c) t);
             ETelegram (EditMessageText "❌ Error: Failed to fetch lead" None)] |}).
Proof.
  intros Htg Hup Hdb Hax. eexists. unfold lead_details.
  rewrite bind_run, tg__run by done.
  rewrite bind_run, getClient_run by done.
  unfold after; cbn [db trace]. rewrite Hdb. unfold try_catch.
  rewrite bind_run, <- app_assoc.
  rewrite (makeApiRequest_ok E c _ "GET" JNull _ body Hup) by exact Hax.
  match goal with
  | |- context [(prop body "data" ≫= ?k) ?w1] =>
      assert (Hfails : fails_quietly (prop body "data" ≫= k));
        [|destruct (Hfails w1) as (e & -> & He)]
  end.
  { unfold prop, str.
    repeat (apply fails_quietly_lift;
            [first [ apply get_prop_type_errors | apply to_string_type_errors
                   | apply locale_or_0_type_errors ]
            |intros ?]).
    by apply fails_quietly_throw. }
  rewrite bind_run. unfold lift at 1. rewrite (error_text_fallback _ _ He).
  rewrite tg__run by done. unfold after; cbn [db trace].
  rewrite <- !app_assoc. reflexivity.
Qed.

(** X8. The rows of the lead list cannot be opened either. For a lead
    whose id is a non-negative safe integer, and whose user name and
    follower count can be printed, the row carries [lead_<id>], which
    reaches the lead detail handler; but with Telegram and the store
    available, and the credential stored, even a request the backend
    answers, with whatever body, ends on the screen
    [❌ Error: Failed to fetch lead]: the handler reads a variable it does
    not declare. *)
Theorem X8_lead_rows_end_in_failure E ctx w c lead n body :
  telegram_ok E → store_up E → db w !! identity ctx = Some c →
  get_prop lead "id" = Ret (JNum n) → 0 ≤ n ≤ max_safe_integer →
  unprintable (prop_of lead "username") = false →
  unprintable (prop_of lead "followers") = false →
  axios E
    (trace w ++ [ETelegram (AnswerCbQuery (Some "👁️ Loading lead details...") false);
                 EMongo (FindOne (identity ctx))])
    (request_config c ("/leads/" +:+ pretty n) "GET" JNull) = AxiosOk body →
  ∃ b t,
    lead_button lead w = (Ret [b], w) ∧
    callback_data b = "lead_" +:+ pretty n ∧
    trace (snd (bot E (CallbackQuery (callback_data b)) ctx w)) =
      (trace w ++
       [ETelegram (AnswerCbQuery (Some "👁️ Loading lead details...") false);
        EMongo (FindOne (identity ctx));
        EAxios (request_config c ("/leads/" +:+ pretty n) "GET" JNull);
        EMongo (UpdateLastUsed (telegramId c) t);
        ETelegram (EditMessageText "❌ Error: Failed to fetch lead" None)])%list.
Proof.
  intros Htg Hup Hdb Hid Hn Huser Hfollowers Hax.
  destruct (pretty_digits n (proj1 Hn)) as [Hd Hne].
  destruct (lead_details_run E (with_match ctx ["lead_" +:+ pretty n; pretty n]) w c
              body Htg Hup Hdb Hax) as [t Ht].
  assert (Hlead : nullish lead = false) by (by destruct lead).
  assert (Hdata : prop_of lead "id" = JNum n) by (unfold prop_of; by rewrite Hid).
  assert (Hsafe : to_str (JNum n) = pretty n)
    by (apply to_str_safe; unfold max_safe_integer in *; lia).
  eexists _, t. split; [|split].
  - unfold lead_button.
    rewrite bind_run, prop_run by done. rewrite bind_run, str_run by done.
    rewrite bind_run, prop_run by done. rewrite bind_run, str_run by done.
    rewrite bind_run, prop_run by done. rewrite bind_run, str_run by (by rewrite Hdata).
    reflexivity.
  - simpl callback_data. by rewrite Hdata, Hsafe.
  - simpl callback_data. rewrite Hdata, Hsafe.
    unfold bot, dispatch. rewrite (route_lead _ Hd Hne). unfold try_catch.
    simpl action_handler. by rewrite Ht.
Qed.

Lemma X8_lead_rows_end_in_failure_witness :
  ∃ b t,
    lead_button acme_lead world7 = (Ret [b], world7) ∧
    callback_data b = "lead_5" ∧
    trace (snd (bot (paging_env [] JNull) (CallbackQuery (callback_data b)) press7
                  world7)) =
      [ETelegram (AnswerCbQuery (Some "👁️ Loading lead details...") false);
       EMongo (FindOne "7");
       EAxios (request_config client7 "/leads/5" "GET" JNull);
       EMongo (UpdateLastUsed "7" t);
       ETelegram (EditMessageText "❌ Error: Failed to fetch lead" None)].
Proof.
  apply (X8_lead_rows_end_in_failure (paging_env [] JNull) press7 world7 client7
           acme_lead 5 (page_of [] JNull)).
  - intros h c. by eexists.
  - intros h. reflexivity.
  - reflexivity.
  - reflexivity.
  - unfold max_safe_integer. lia.
  - reflexivity.
  - reflexivity.
  - reflexivity.
Defined.

(** ** Job rows *)

(** X9. Round trip of the job identifiers. For a job whose id is a
    non-negative safe integer, and whose status and name can be printed,
    the row of the job list carries [job_<id>]; pressed by an identity
    with a stored credential, with Telegram and the store available, it
    makes the bot request [<base URL>/jobs/<id>] with the stored token:
    the id that went into the button is the id that is asked for. Beyond
    the safe range this fails: the id [10^21] is printed [1e+21], and the
    press of [job_1e+21] asks for job 1. *)
Theorem X9_job_rows_open_their_job E ctx w c job n :
  telegram_ok E → store_up E → db w !! identity ctx = Some c →
  get_prop job "id" = Ret (JNum n) → 0 ≤ n ≤ max_safe_integer →
  unprintable (prop_of job "status") = false →
  unprintable (prop_of job "name") = false →
  (∃ b,
     job_button job w = (Ret [b], w) ∧
     callback_data b = "job_" +:+ pretty n ∧
     issues [ETelegram (AnswerCbQuery (Some "👁️ Loading job details...") false);
             EMongo (FindOne (identity ctx));
             EAxios (request_config c ("/jobs/" +:+ pretty n) "GET" JNull)]
       (bot E (CallbackQuery (callback_data b)) ctx) w) ∧
  job_button (JObj [("id", JNum (10 ^ 21))]) w =
    (Ret [mkButton "❓ undefined" "job_1e+21"], w) ∧
  route actions "job_1e+21" = Some (A_job_details, ["job_1"; "1"]).
Proof.
  intros Htg Hup Hdb Hid Hn Hstatus Hname.
  destruct (pretty_digits n (proj1 Hn)) as [Hd Hne].
  assert (Hjob : nullish job = false) by (by destruct job).
  assert (Hdata : prop_of job "id" = JNum n) by (unfold prop_of; by rewrite Hid).
  assert (Hsafe : to_str (JNum n) = pretty n)
    by (apply to_str_safe; unfold max_safe_integer in *; lia).
  split; [|split; [by vm_compute|reflexivity]].
  eexists. split; [|split].
  - unfold job_button.
    rewrite bind_run, prop_run by done.
    rewrite bind_run. unfold lift at 1. rewrite statusEmoji_run by done.
    rewrite bind_run, prop_run by done. rewrite bind_run, str_run by done.
    rewrite bind_run, prop_run by done. rewrite bind_run, str_run by (by rewrite Hdata).
    reflexivity.
  - simpl callback_data. by rewrite Hdata, Hsafe.
  - simpl callback_data. rewrite Hdata, Hsafe.
    unfold bot, dispatch. rewrite (route_job _ Hd Hne). simpl action_handler.
    apply issues_try_catch; [|adds_any].
    apply (proxied_issues E (with_match ctx ["job_" +:+ pretty n; pretty n]) w c
             _ _ ("/jobs/" +:+ pretty n) "GET" Htg Hup Hdb).
    first_request.
Qed.

Lemma X9_job_rows_open_their_job_witness :
  ∃ b,
    job_button acme_job world7 = (Ret [b], world7) ∧
    callback_data b = "job_9" ∧
    issues [ETelegram (AnswerCbQuery (Some "👁️ Loading job details...") false);
            EMongo (FindOne "7");
            EAxios (request_config client7 "/jobs/9" "GET" JNull)]
      (bot jobs_env (CallbackQuery (callback_data b)) press7) world7.
Proof.
  apply (X9_job_rows_open_their_job jobs_env press7 world7 client7 acme_job 9).
  - intros h c. by eexists.
  - intros h. reflexivity.
  - reflexivity.
  - reflexivity.
  - unfold max_safe_integer. lia.
  - reflexivity.
  - reflexivity.
Defined.

(** ** Running a job *)

(** X10. The handler of [run_job_<id>], with Telegram and the store
    available and the credential stored: when the backend accepts the POST
    it announces [✅ Job started!], and then, as no scene is installed,
    fails on [ctx.scene.reenter()] and raises a second alert that reads
    [❌ undefined]. *)
Theorem X10_run_job_reports_started_then_undefined E ctx w c body :
  telegram_ok E → store_up E → db w !! identity ctx = Some c →
  axios E
    (trace w ++ [ETelegram (AnswerCbQuery (Some "👁️ Starting job...") false);
                 EMongo (FindOne (identity ctx))])
    (request_config c ("/jobs/" +:+ to_str (match1 ctx) +:+ "/run") "POST" JNull)
    = AxiosOk body →
  ∃ t,
    run_job E ctx w =
      (Ret tt,
       {| db := apply_op (UpdateLastUsed (telegramId c) t) (db w);
          trace := trace w ++
            [ETelegram (AnswerCbQuery (Some "👁️ Starting job...") false);
             EMongo (FindOne (identity ctx));
             EAxios (request_config c ("/jobs/" +:+ to_str (match1 ctx) +:+ "/run")
                       "POST" JNull);
             EMongo (UpdateLastUsed (telegramId c) t);
             ETelegram (AnswerCbQuery (Some "✅ Job started!") true);
             ETelegram (SetMessageReactionAt (chat_id ctx) (cb_message_id ctx) "🚀");
             ETelegram (AnswerCbQuery (Some "❌ undefined") true)] |}).
Proof.
  intros Htg Hup Hdb Hax. eexists. unfold run_job.
  rewrite bind_run, tg__run by done.
  rewrite bind_run, getClient_run by done.
  unfold after; cbn [db trace]. rewrite Hdb. unfold try_catch at 1.
  rewrite bind_run, <- app_assoc.
  rewrite (makeApiRequest_ok E c _ "POST" JNull _ body Hup) by exact Hax.
  rewrite bind_run, tg__run by done.
  rewrite bind_run. unfold try_catch at 1. rewrite tg__run by done.
  unfold throw. rewrite bind_run. unfold lift at 1.
  change (alert_text ErrType) with (Ret (A:=string) "❌ undefined"). cbv iota beta.
  rewrite tg__run by done.
  unfold after; cbn [db trace]. rewrite <- !app_assoc. reflexivity.
Qed.

Lemma X10_run_job_reports_started_then_undefined_witness :
  ∃ t,
    run_job jobs_env (with_match press7 ["run_job_3"; "3"]) world7 =
      (Ret tt,
       {| db := apply_op (UpdateLastUsed "7" t) (db world7);
          trace :=
            [ETelegram (AnswerCbQuery (Some "👁️ Starting job...") false);
             EMongo (FindOne "7");
             EAxios (request_config client7 "/jobs/3/run" "POST" JNull);
             EMongo (UpdateLastUsed "7" t);
             ETelegram (AnswerCbQuery (Some "✅ Job started!") true);
             ETelegram (SetMessageReactionAt 70 5 "🚀");
             ETelegram (AnswerCbQuery (Some "❌ undefined") true)] |}).
Proof.
  apply (X10_run_job_reports_started_then_undefined jobs_env
           (with_match press7 ["run_job_3"; "3"]) world7 client7
           (JObj [("data", JArr []);
                  ("pagination", JObj [("page", JNum 1); ("pages", JNum 0);
                                       ("total", JNum 0)])])).
  - intros h c. by eexists.
  - intros h. reflexivity.
  - reflexivity.
  - reflexivity.
Defined.

(** ** The base URL *)

Lemma seturl_run E ctx w url rest c :
  telegram_ok E → store_up E →
  tail (split_space (message_text ctx)) = url :: rest →
  db w !! identity ctx = Some c →
  seturl E ctx w =
    (Ret tt,
     {| db := alter (with_baseUrl url) (identity ctx) (db w);
        trace := trace w ++
          [EMongo (FindOne (identity ctx));
           EMongo (UpdateBaseUrl (identity ctx) url);
           ETelegram (Reply "✅ Base URL updated successfully!" None)] |}).
Proof.
  intros Htg Hup Hargs Hdb. unfold seturl. rewrite Hargs.
  rewrite bind_run, getClient_run by done.
  unfold after; cbn [db trace]. rewrite Hdb.
  rewrite bind_run, mongo_run by done.
  rewrite tg__run by done. unfold after; cbn [db trace].
  rewrite <- !app_assoc. reflexivity.
Qed.

(** X11. [/seturl <url>], with Telegram and the store available. Without
    a stored credential nothing is written and the user is sent to
    [/settoken]. With one, the base URL of the document becomes [<url>]
    and its token, creation date and [lastUsed] stay. In either case the
    URL is taken as it is: whatever the outside answers, the command sends
    no request to check it. *)
Theorem X11_seturl_stores_the_url_unchecked E ctx w url rest :
  telegram_ok E → store_up E →
  tail (split_space (message_text ctx)) = url :: rest →
  (db w !! identity ctx = None →
   seturl E ctx w =
     (Ret tt,
      {| db := db w;
         trace := trace w ++
           [EMongo (FindOne (identity ctx));
            ETelegram (Reply "❌ Please set your API token first using /settoken"
                         None)] |})) ∧
  (∀ c, db w !! identity ctx = Some c →
        db (snd (seturl E ctx w)) !! identity ctx
          = Some (mkClient (telegramId c) (apiToken c) url (createdAt c) (lastUsed c))) ∧
  ∀ E' ctx' w', ∃ l,
    trace (snd (seturl E' ctx' w')) = (trace w' ++ l)%list ∧ Forall no_request l.
Proof.
  intros Htg Hup Hargs. split; [|split].
  - intros Hdb. unfold seturl. rewrite Hargs.
    rewrite bind_run, getClient_run by done.
    unfold after; cbn [db trace]. rewrite Hdb.
    rewrite tg__run by done. unfold after; cbn [db trace].
    rewrite <- !app_assoc. reflexivity.
  - intros c Hdb. rewrite (seturl_run E ctx w url rest c) by done.
    cbn [snd db]. rewrite lookup_alter_eq, Hdb. reflexivity.
  - intros E' ctx'. change (adds no_request (seturl E' ctx')).
    adds_auto; exact I.
Qed.

Lemma X11_seturl_stores_the_url_unchecked_witness :
  db (snd (seturl jobs_env seturl_custom world7)) !! "7"
    = Some (mkClient "7" "tok" "https://custom.example/api" 1 2).
Proof.
  destruct (X11_seturl_stores_the_url_unchecked jobs_env seturl_custom world7
              "https://custom.example/api" []) as (_ & H & _).
  - intros h c. by eexists.
  - intros h. reflexivity.
  - reflexivity.
  - by apply (H client7).
Defined.

(** X12. [/seturl] followed by a list: with Telegram and the store
    available, once an identity with a stored credential has set a base
    URL, the next press of [jobs_list] sends its request to that URL
    followed by [/jobs?page=1&per_page=10], with the token that was
    stored. *)
Theorem X12_requests_follow_seturl E ctx press w url rest c :
  telegram_ok E → store_up E →
  tail (split_space (message_text ctx)) = url :: rest →
  db w !! identity ctx = Some c →
  identity press = identity ctx →
  cfg_url (request_config (with_baseUrl url c) "/jobs?page=1&per_page=10" "GET" JNull)
    = JStr (url +:+ "/jobs?page=1&per_page=10") ∧
  issues [ETelegram (AnswerCbQuery (Some "👁️ Loading jobs...") false);
          EMongo (FindOne (identity ctx));
          EAxios (request_config (with_baseUrl url c) "/jobs?page=1&per_page=10"
                    "GET" JNull)]
    (jobs_list E press) (snd (seturl E ctx w)).
Proof.
  intros Htg Hup Hargs Hdb Hid. split; [reflexivity|].
  rewrite (seturl_run E ctx w url rest c) by done. cbn [snd].
  rewrite <- Hid. unfold jobs_list.
  apply proxied_issues; [done|done| |first_request].
  cbn [db]. by rewrite Hid, lookup_alter_eq, Hdb.
Qed.

Lemma X12_requests_follow_seturl_witness :
  issues [ETelegram (AnswerCbQuery (Some "👁️ Loading jobs...") false);
          EMongo (FindOne "7");
          EAxios (request_config (with_baseUrl "https://custom.example/api" client7)
                    "/jobs?page=1&per_page=10" "GET" JNull)]
    (jobs_list jobs_env press7) after_seturl.
Proof.
  apply (X12_requests_follow_seturl jobs_env seturl_custom press7 world7
           "https://custom.example/api" [] client7).
  - intros h c. by eexists.
  - intros h. reflexivity.
  - reflexivity.
  - reflexivity.
  - reflexivity.
Defined.

(** ** Deleting the account *)

(** X13. The confirmed account deletion, with Telegram and the store
    available: afterwards the collection holds no document for the
    identity; confirming once more leaves the collection as it is and
    ends on the same success screen, record or no record; and the next menu
    request of the identity is answered with the "not onboarded"
    message. *)
Theorem X13_account_deletion_is_idempotent E ctx w :
  telegram_ok E → store_up E →
  db (snd (confirm_delete_account E ctx w)) !! identity ctx = None ∧
  db (snd (confirm_delete_account E ctx (snd (confirm_delete_account E ctx w))))
    = db (snd (confirm_delete_account E ctx w)) ∧
  last (trace (snd (confirm_delete_account E ctx
                      (snd (confirm_delete_account E ctx w)))))
    = Some (ETelegram (EditMessageText account_deleted_text None)) ∧
  ∀ title keyboard,
    last (trace (snd (menu_hears E title keyboard ctx
                        (snd (confirm_delete_account E ctx w)))))
      = Some (ETelegram (Reply not_onboarded None)).
Proof.
  intros Htg Hup.
  rewrite !(confirm_delete_account_run E ctx) by done. cbn [snd db trace].
  assert (Hgone : delete (identity ctx) (db w) !! identity ctx = None)
    by apply lookup_delete_eq.
  split; [done|]. split; [by rewrite delete_id|].
  split.
  - by rewrite last_app.
  - intros title keyboard.
    rewrite (menu_hears_without_credential E title keyboard ctx) by done.
    cbn [snd trace]. by rewrite last_app.
Qed.

Lemma X13_account_deletion_is_idempotent_witness :
  db (snd (confirm_delete_account jobs_env press7 world7)) !! "7" = None.
Proof.
  apply (X13_account_deletion_is_idempotent jobs_env press7 world7).
  - intros h c. by eexists.
  - intros h. reflexivity.
Defined.

(** ** The catch-all *)

Lemma getClient_down E id w :
  (∀ h, mongo_up E h = false) →
  getClient E id w = (Throw ErrMongo, after w (EMongo (FindOne id))).
Proof.
  intros Hdown. unfold getClient. rewrite bind_run. unfold mongo. by rewrite Hdown.
Qed.

(** X14. [bot.catch] contains every failure. When Telegram accepts the
    calls, handling an update never throws, whatever the backend and the
    store do. And when the store is down, each entry of the main menu that
    needs the credential (Jobs, Targets, Leads, Statistics, Content
    Analysis, Settings) is answered with the generic error message and
    nothing else: the failed read of the credential and that reply are all
    the bot does. *)
Theorem X14_failures_end_in_the_generic_message E u ctx w :
  telegram_ok E →
  fst (bot E u ctx w) = Ret tt ∧
  ((∀ h, mongo_up E h = false) →
   In (message_text ctx) menu_entries →
   bot E (Message None) ctx w =
     (Ret tt,
      {| db := db w;
         trace := trace w ++
           [EMongo (FindOne (identity ctx));
            ETelegram (Reply generic_error_text None)] |})).
Proof.
  intros Htg. split.
  - unfold bot, try_catch. destruct (dispatch E u ctx w) as [[[]|e] w1]; [done|].
    by rewrite tg__run.
  - intros Hdown Htext. unfold bot, dispatch, try_catch.
    unfold menu_entries in Htext. simpl in Htext.
    destruct Htext as [<-|[<-|[<-|[<-|[<-|[<-|[]]]]]]];
      match goal with
      | |- context [route_message messages None ?text] =>
          let h := eval vm_compute in (route_message messages None text) in
          change (route_message messages None text) with h
      end;
      cbv beta iota; cbn [message_handler];
      unfold hears_jobs, hears_targets, hears_leads, menu_hears, hears_statistics,
        hears_content_analysis, hears_settings;
      rewrite bind_run, reactToMessage_run; cbv beta iota;
      rewrite bind_run, getClient_down by done;
      rewrite tg__run by done;
      unfold after; cbn [db trace]; by rewrite <- !app_assoc.
Qed.

Lemma X14_failures_end_in_the_generic_message_witness :
  bot (env_of jobs_backend false) (Message None) (say "📉 Statistics") world7 =
    (Ret tt,
     {| db := db world7;
        trace := [EMongo (FindOne "7"); ETelegram (Reply generic_error_text None)] |}).
Proof.
  destruct (X14_failures_end_in_the_generic_message (env_of jobs_backend false)
              (Message None) (say "📉 Statistics") world7) as [_ H].
  - intros h c. by eexists.
  - apply H; [reflexivity|]. unfold menu_entries. simpl. tauto.
Defined.

(** ** The argument of [/settoken] *)

Lemma append_empty s : s +:+ "" = s.
Proof. induction s as [|c s IH]; [done|]. by rewrite append_cons, IH. Qed.

Lemma rev_app_rev_app a cur acc :
  String.rev_app (String.rev_app a cur) acc = String.rev_app cur (a +:+ acc).
Proof.
  revert cur acc. induction a as [|c a IH]; intros cur acc; [done|].
  simpl String.rev_app at 2. by rewrite IH.
Qed.

(** Reading a word and giving it back. *)
Lemma rev_word a : String.rev (String.rev_app a "") = a.
Proof. unfold String.rev. rewrite rev_app_rev_app. simpl. apply append_empty. Qed.

Lemma split_space_go_word cur a s :
  no_space a = true →
  split_space_go cur (a +:+ s) = split_space_go (String.rev_app a cur) s.
Proof.
  revert cur. induction a as [|c a IH]; intros cur Ha; [done|].
  simpl in Ha. apply andb_true_iff in Ha as [Hc Ha].
  apply negb_true_iff in Hc. rewrite append_cons. simpl. rewrite Hc. by apply IH.
Qed.

(** [s.split(' ')] on a text without a space and on a text whose first
    two words are known. *)
Lemma split_space_one a : no_space a = true → split_space a = [a].
Proof.
  intros Ha. unfold split_space.
  rewrite <- (append_empty a) at 1.
  rewrite split_space_go_word by done. simpl. by rewrite rev_word.
Qed.

Lemma split_space_words cmd tok more :
  no_space cmd = true → no_space tok = true →
  more = "" ∨ (∃ r, more = " " +:+ r) →
  ∃ rest, split_space (cmd +:+ " " +:+ tok +:+ more) = cmd :: tok :: rest.
Proof.
  intros Hcmd Htok Hmore. unfold split_space.
  rewrite split_space_go_word by done. rewrite append_cons, append_nil. simpl.
  rewrite rev_word.
  rewrite (split_space_go_word "" tok more) by done.
  destruct Hmore as [->|[r ->]]; [|rewrite append_cons, append_nil]; simpl;
    rewrite rev_word; eauto.
Qed.

Lemma tg_run E c w :
  telegram_ok E → ∃ id, tg E c w = (Ret id, after w (ETelegram c)).
Proof. intros Htg. unfold tg. destruct (Htg (trace w) c) as [id ->]. by exists id. Qed.

Lemma axios_call_issues E cfg w : issues [EAxios cfg] (axios_call E cfg) w.
Proof. exists []. unfold axios_call. by destruct (axios E _ _). Qed.

(** X15. How [/settoken] reads its argument. A message without a space
    is answered with the usage text and nothing else happens: no request,
    no access to the store. Otherwise the token is what stands between the
    first space and the next one (or the end), and with Telegram available
    it is that token the verification request carries; after two spaces in
    a row this is the empty token. *)
Theorem X15_settoken_takes_the_first_word E ctx w :
  (no_space (message_text ctx) = true →
   db (snd (settoken E ctx w)) = db w ∧
   trace (snd (settoken E ctx w)) =
     (trace w ++ [ETelegram (Reply settoken_usage None)])%list) ∧
  (∀ cmd tok more,
     no_space cmd = true → no_space tok = true →
     more = "" ∨ (∃ r, more = " " +:+ r) →
     message_text ctx = cmd +:+ " " +:+ tok +:+ more →
     telegram_ok E →
     issues [ETelegram (Reply "👁️ Verifying token..." None);
             EAxios (testConfig E tok)]
       (settoken E ctx) w).
Proof.
  split.
  - intros Htext. unfold settoken.
    rewrite bind_run, reactToMessage_run.
    rewrite (split_space_one _ Htext).
    change (tail [message_text ctx]) with (@nil string). cbv iota.
    unfold tg_, tg, mbind, M_bind, mret, M_ret, after, settoken_usage.
    cbn [db trace].
    by match goal with |- context [telegram E ?h ?c] => destruct (telegram E h c) end.
  - intros cmd tok more Hcmd Htok Hmore Htext Htg.
    destruct (split_space_words cmd tok more Hcmd Htok Hmore) as [rest Hsplit].
    unfold settoken. rewrite Htext, Hsplit.
    change (tail (cmd :: tok :: rest)) with (tok :: rest). cbv iota.
    eapply (issues_after []
              [ETelegram (Reply "👁️ Verifying token..." None);
               EAxios (testConfig E tok)]);
      [apply reactToMessage_run|by rewrite app_nil_r|].
    destruct (tg_run E (Reply "👁️ Verifying token..." None) w Htg) as [msg Hmsg].
    eapply (issues_after [ETelegram (Reply "👁️ Verifying token..." None)]
              [EAxios (testConfig E tok)]); [exact Hmsg|done|].
    apply issues_try_catch; [|adds_any].
    apply issues_bind; [|adds_any].
    apply axios_call_issues.
Qed.

Lemma X15_settoken_takes_the_first_word_witness :
  issues [ETelegram (Reply "👁️ Verifying token..." None);
          EAxios (testConfig jobs_env "")]
    (settoken jobs_env (say "/settoken  abc")) world_empty.
Proof.
  destruct (X15_settoken_takes_the_first_word jobs_env (say "/settoken  abc")
              world_empty) as [_ H].
  apply (H "/settoken" "" " abc"); try reflexivity.
  - right. by exists "abc".
  - intros h c. by eexists.
Defined.

(** ** The job list *)

Lemma job_button_run job w :
  renders job = true → job_button job w = (Ret (job_row job), w).
Proof.
  unfold renders. rewrite !andb_true_iff, !negb_true_iff.
  intros [[[Hjob Hstatus] Hname] Hid]. unfold job_button.
  rewrite bind_run, prop_run by done.
  rewrite bind_run. unfold lift at 1. rewrite statusEmoji_run by done.
  rewrite bind_run, prop_run by done. rewrite bind_run, str_run by done.
  rewrite bind_run, prop_run by done. by rewrite bind_run, str_run by done.
Qed.

Lemma job_button_fails job w :
  renders job = false → job_button job w = (Throw ErrType, w).
Proof.
  unfold renders, job_button. intros Hjob.
  destruct (nullish job) eqn:Hnull; [by rewrite bind_run, prop_nullish by done|].
  rewrite bind_run, prop_run by done.
  rewrite bind_run. unfold lift at 1, statusEmoji, to_string.
  destruct (unprintable (prop_of job "status")) eqn:Hstatus; [done|].
  rewrite bind_run, prop_run by done. rewrite bind_run.
  destruct (unprintable (prop_of job "name")) eqn:Hname;
    [by rewrite str_unprintable by done|].
  rewrite str_run by done.
  rewrite bind_run, prop_run by done. rewrite bind_run.
  destruct (unprintable (prop_of job "id")) eqn:Hid;
    [by rewrite str_unprintable by done|].
  done.
Qed.

Lemma mapM_job_button_run items w :
  forallb renders items = true →
  mapM job_button items w = (Ret (map job_row items), w).
Proof.
  induction items as [|job items IH]; [done|]. simpl. intros H.
  apply andb_true_iff in H as [Hjob Hitems].
  rewrite bind_run, job_button_run by done. by rewrite bind_run, IH by done.
Qed.

Lemma mapM_job_button_fails items w :
  forallb renders items = false →
  mapM job_button items w = (Throw ErrType, w).
Proof.
  induction items as [|job items IH]; [done|]. simpl. intros H.
  destruct (renders job) eqn:Hjob.
  - simpl in H. rewrite bind_run, job_button_run by done.
    by rewrite bind_run, IH by done.
  - by rewrite bind_run, job_button_fails by done.
Qed.

Lemma last_screen_after w c :
  is_screen (ETelegram c) = true → last_screen (after w (ETelegram c)) = Some c.
Proof.
  intros Hc. unfold last_screen, after. cbn [trace].
  rewrite List.filter_app. cbn [List.filter]. rewrite Hc. by rewrite last_snoc.
Qed.

(** X16. What the job list renders, with Telegram and the store
    available and the credential stored, once the backend has answered
    with an array under [data]:
    - an empty array gives the fixed screen [No jobs found];
    - an array of rows that can be rendered (no row is [null], and the
      status, the name and the id of each can be printed) gives, when the
      page position can be rendered too, one button per job, in order,
      each carrying [job_<id>], followed by the [Back] button, under a
      header with the page, the number of pages and the total; the mark
      of a row is what the status finds in the table of emoji, which for
      a status such as [constructor] is the text of an inherited function;
    - an array with a row that cannot be rendered gives the failure
      screen: one bad row hides all the others. *)
Theorem X16_job_list_screen E ctx w c body items :
  telegram_ok E → store_up E → db w !! identity ctx = Some c →
  axios E
    (trace w ++ [ETelegram (AnswerCbQuery (Some "👁️ Loading jobs...") false);
                 EMongo (FindOne (identity ctx))])
    (request_config c "/jobs?page=1&per_page=10" "GET" JNull) = AxiosOk body →
  get_prop body "data" = Ret (JArr items) →
  (items = [] →
   last_screen (snd (jobs_list E ctx w)) =
     Some (EditMessageText
             ("📭 No jobs found." +:+ nl +:+ nl +:+ "Create your first job!") None)) ∧
  (items ≠ [] → forallb renders items = true →
   page_renders (prop_of body "pagination") = true →
   last_screen (snd (jobs_list E ctx w)) =
     Some (EditMessageText (jobs_header (prop_of body "pagination"))
             (Some (InlineKeyboard
                      (map job_row items ++ [[mkButton "🔙 Back" "back_jobs"]]))))) ∧
  (forallb renders items = false →
   last_screen (snd (jobs_list E ctx w)) =
     Some (EditMessageText "❌ Error: Failed to fetch jobs" None)).
Proof.
  intros Htg Hup Hdb Hax Hdata.
  assert (Hbody : nullish body = false) by (by destruct body).
  assert (Hitems : prop_of body "data" = JArr items)
    by (unfold prop_of; by rewrite Hdata).
  remember (jobs_list E ctx w) as res eqn:Hrun.
  unfold jobs_list, try_returning in Hrun.
  rewrite bind_run, tg__run in Hrun by done.
  rewrite bind_run, getClient_run in Hrun by done.
  unfold after in Hrun. cbn [db trace] in Hrun.
  rewrite Hdb, <- app_assoc in Hrun. cbn [app] in Hrun.
  rewrite bind_run in Hrun. unfold try_catch in Hrun. rewrite bind_run in Hrun.
  rewrite (makeApiRequest_ok E c _ "GET" JNull _ body Hup) in Hrun by exact Hax.
  rewrite bind_run, prop_run, Hitems in Hrun by done.
  rewrite bind_run in Hrun. unfold prop at 1, lift at 1 in Hrun.
  cbn [get_prop String.eqb Ascii.eqb Bool.eqb] in Hrun. unfold is_zero in Hrun.
  split; [|split].
  - intros ->. change (Z.of_nat (length (@nil JsVal)) =? 0) with true in Hrun.
    unfold mret, M_ret in Hrun. cbv beta iota in Hrun.
    rewrite tg__run in Hrun by done. subst res. cbn [snd].
    by apply last_screen_after.
  - intros Hne Hrows Hpage. destruct items as [|job items']; [done|].
    change (Z.of_nat (length (job :: items')) =? 0) with false in Hrun.
    cbv iota in Hrun. unfold js_map in Hrun.
    unfold page_renders in Hpage. rewrite !andb_true_iff, !negb_true_iff in Hpage.
    destruct Hpage as [[[Hpagination Hp] Hps] Htotal].
    rewrite bind_run, mapM_job_button_run in Hrun by done.
    rewrite bind_run, (prop_run body "pagination") in Hrun by done.
    rewrite bind_run, prop_run in Hrun by done.
    rewrite bind_run, prop_run in Hrun by done.
    rewrite bind_run, str_run in Hrun by done.
    rewrite bind_run, str_run in Hrun by done.
    rewrite bind_run, prop_run in Hrun by done.
    rewrite bind_run, str_run in Hrun by done.
    rewrite bind_run, tg__run in Hrun by done.
    unfold mret, M_ret in Hrun. subst res. cbn [snd]. by apply last_screen_after.
  - intros Hrows. destruct items as [|job items']; [done|].
    change (Z.of_nat (length (job :: items')) =? 0) with false in Hrun.
    cbv iota in Hrun. unfold js_map in Hrun.
    rewrite bind_run, mapM_job_button_fails in Hrun by done.
    rewrite bind_run, bind_run in Hrun. unfold lift at 1 in Hrun.
    rewrite (error_text_fallback ErrType) in Hrun by done.
    rewrite tg__run in Hrun by done. unfold mret, M_ret in Hrun.
    subst res. cbn [snd]. by apply last_screen_after.
Qed.

Lemma X16_job_list_screen_witness :
  last_screen (snd (jobs_list (paging_env [acme_job; odd_job] (JNum 12)) press7 world7))
    = Some (EditMessageText
              (jobs_header (prop_of (page_of [acme_job; odd_job] (JNum 12)) "pagination"))
              (Some (InlineKeyboard
                       [[mkButton "🏃 scrape" "job_9"];
                        [mkButton "function Object() { [native code] } crawl" "job_10"];
                        [mkButton "🔙 Back" "back_jobs"]]))).
Proof.
  destruct (X16_job_list_screen (paging_env [acme_job; odd_job] (JNum 12)) press7
              world7 client7 (page_of [acme_job; odd_job] (JNum 12))
              [acme_job; odd_job]) as (_ & H & _).
  - intros h c. by eexists.
  - intros h. reflexivity.
  - reflexivity.
  - reflexivity.
  - reflexivity.
  - apply H; [discriminate|reflexivity|reflexivity].
Defined.

(** ** Whose credential a request carries *)

Lemma request_config_credential c c0 endpoint method data :
  credential c = credential c0 →
  request_config c endpoint method data = request_config c0 endpoint method data.
Proof. unfold credential, request_config. by intros [= _ -> -> _]. Qed.

Lemma own_request_stored E typed d0 id oc c endpoint method data :
  (∃ d, same_credentials d0 d ∧ oc = d !! id) → oc = Some c →
  own_request E typed (d0 !! id) (EAxios (request_config c endpoint method data)).
Proof.
  intros (d & Hd & ->) Hc. left. specialize (Hd id). rewrite Hc in Hd. simpl in Hd.
  destruct (d0 !! id) as [c0|]; simpl in Hd; [|done].
  assert (Hcred : credential c = credential c0) by congruence.
  exists c0, endpoint, method, data. split; [done|].
  by apply request_config_credential.
Qed.

Ltac own_side :=
  intros; cbv beta in *;
  first
    [ exact I
    | by apply touch_same_credentials
    | by (eapply own_request_stored; eauto)
    | done ].

Lemma handlers_send_own_requests E typed ctx d0 :
  (∀ h, h ≠ H_settoken → h ≠ H_seturl →
        guarded (same_credentials d0) (own_request E typed (d0 !! identity ctx)) any
          (message_handler E h ctx)) ∧
  (∀ a m, a ≠ A_confirm_delete_account →
          guarded (same_credentials d0) (own_request E typed (d0 !! identity ctx)) any
            (action_handler E a (with_match ctx m))).
Proof.
  split.
  - intros h Hh1 Hh2.
    destruct h; try done; simpl message_handler; guarded_auto; own_side.
  - intros a m Ha.
    change (identity ctx) with (identity (with_match ctx m)).
    generalize (with_match ctx m). clear ctx m. intros ctx.
    destruct a; try done; simpl action_handler; guarded_auto; own_side.
Qed.

(** The only request of [/settoken] is the verification of the first
    argument of the message. *)
Lemma settoken_verifies_the_typed_token E ctx oc :
  adds (own_request E (head (tail (split_space (message_text ctx)))) oc) (settoken E ctx).
Proof.
  unfold settoken. apply adds_bind; [by apply adds_nothing|]. intros _.
  destruct (tail (split_space (message_text ctx))) as [|token rest];
    adds_auto; try exact I.
  right. by exists token.
Qed.

Lemma credential_handlers_send_no_request E typed ctx oc :
  adds (own_request E typed oc) (seturl E ctx) ∧
  adds (own_request E typed oc) (confirm_delete_account E ctx).
Proof. split; adds_auto; exact I. Qed.

(** Only the command [/settoken] reaches the handler of [/settoken]. *)
Lemma route_settoken command text :
  route_message messages command text = Some H_settoken → command = Some "settoken".
Proof.
  unfold messages, route_message, message_trigger_matches.
  destruct command as [c|].
  - destruct (String.eqb c "start"); [done|].
    destruct (String.eqb_spec c "settoken") as [->|_]; [done|].
    destruct (String.eqb c "seturl"); [done|].
    repeat (match goal with
            | |- context [String.eqb ?s text] => destruct (String.eqb s text); [done|]
            end).
    destruct (String.eqb c "deleteaccount"); [done|].
    by destruct (String.eqb _ text).
  - repeat (match goal with
            | |- context [String.eqb ?s text] => destruct (String.eqb s text); [done|]
            end).
    done.
Qed.

(** X17. No request leaves with another credential. Whatever the update
    and whatever the outside answers, every request the bot sends to a
    backend is either built by the proxy from the document the sender had
    in the collection when the update arrived (its base URL, its token),
    or is sent for a [/settoken] message and is the verification request
    of the token that message carries, its first argument. In particular,
    for an identity without a document, [/settoken] causes no request but
    that verification and every other update causes none at all. *)
Theorem X17_requests_carry_the_senders_credential E u ctx w :
  ∃ l, trace (snd (bot E u ctx w)) = (trace w ++ l)%list ∧
       Forall (own_request E (typed_token u ctx) (db w !! identity ctx)) l.
Proof.
  set (P := own_request E (typed_token u ctx) (db w !! identity ctx)).
  assert (Hrefl : same_credentials (db w) (db w)) by done.
  destruct (handlers_send_own_requests E (typed_token u ctx) ctx (db w)) as [Hm Ha].
  assert (Hdispatch : ∃ l, trace (snd (dispatch E u ctx w)) = (trace w ++ l)%list ∧
                           Forall P l).
  { unfold dispatch. destruct u as [command|data].
    - destruct (route_message _ _ _) as [h|] eqn:Hroute; [|by apply (adds_ret P tt)].
      destruct (credential_handlers_send_no_request E (typed_token (Message command) ctx)
                  ctx (db w !! identity ctx)) as [Hurl _].
      destruct h;
        first [ apply Hurl
              | by apply (λ H1 H2, Hm _ H1 H2 w); [discriminate|discriminate|]
              | idtac ].
      apply route_settoken in Hroute as ->.
      apply settoken_verifies_the_typed_token.
    - destruct (route actions data) as [[a m]|]; [|by apply (adds_ret P tt)].
      destruct (credential_handlers_send_no_request E (typed_token (CallbackQuery data) ctx)
                  (with_match ctx m) (db w !! identity ctx)) as [_ Hdel].
      destruct a;
        first [ apply Hdel
              | by apply (λ H1, Ha _ m H1 w); [discriminate|] ]. }
  destruct Hdispatch as (l1 & Hl1 & HP1).
  unfold bot, try_catch. destruct (dispatch E u ctx w) as [[[]|e] w1]; simpl in *.
  - by exists l1.
  - assert (Hcatch : adds P (tg_ E (Reply generic_error_text None))).
    { unfold tg_. apply adds_bind; [by apply adds_tg|]. intros _. apply adds_ret. }
    destruct (Hcatch w1) as (l2 & Hl2 & HP2).
    exists (l1 ++ l2)%list. split; [|by apply Forall_app].
    by rewrite Hl2, Hl1, app_assoc.
Qed.

(** ** When the backend cannot be reached *)







(** ** Commands when Telegram refuses a call *)

(** X19. [/start] greets without a reaction. [ctx.setMessageReaction] is
    no method of the context, so the call in [reactToMessage] fails before
    anything is sent and the failure is swallowed: no reaction reaches
    Telegram. When replies are accepted and the store is available, the
    command [/start] reads the sender's document and replies once: an
    identity without a document gets the onboarding text, and one with a
    document the greeting with its [lastUsed] date and the main menu. That
    read and that reply are all the bot does; neither branch calls the
    backend or writes to the collection. *)
Theorem X19_start_greets_without_reactions E ctx w :
  replies_accepted E → store_up E →
  (db w !! identity ctx = None →
   bot E (Message (Some "start")) ctx w =
     (Ret tt,
      {| db := db w;
         trace := trace w ++ [EMongo (FindOne (identity ctx));
                              ETelegram (Reply onboarding_text None)] |})) ∧
  (∀ c, db w !! identity ctx = Some c →
        bot E (Message (Some "start")) ctx w =
          (Ret tt,
           {| db := db w;
              trace := trace w ++ [EMongo (FindOne (identity ctx));
                                   ETelegram (Reply (welcome_back_text E ctx c)
                                                (Some mainMenu))] |})).
Proof.
  intros Hreply Hup.
  assert (Hsay : ∀ text extra w',
            tg_ E (Reply text extra) w' = (Ret tt, after w' (ETelegram (Reply text extra)))).
  { intros text extra w'. unfold tg_, tg. rewrite bind_run.
    by destruct (Hreply (trace w') text extra) as [? ->]. }
  assert (Hbot : bot E (Message (Some "start")) ctx w =
                 try_catch (start E ctx) (λ _, tg_ E (Reply generic_error_text None)) w)
    by reflexivity.
  rewrite Hbot. unfold try_catch, start.
  rewrite bind_run, reactToMessage_run, bind_run, getClient_run by done.
  unfold after at 1. cbn [db trace].
  split.
  - intros Hdb. rewrite Hdb. cbv iota beta.
    rewrite Hsay. unfold after. cbn [db trace]. by rewrite <- !app_assoc.
  - intros c Hdb. rewrite Hdb. cbv iota beta.
    rewrite Hsay. unfold after. cbn [db trace]. by rewrite <- !app_assoc.
Qed.

Lemma X19_start_greets_without_reactions_witness :
  bot replies_only_env (Message (Some "start")) (say "/start") world7 =
    (Ret tt,
     {| db := db world7;
        trace := [EMongo (FindOne "7");
                  ETelegram (Reply (welcome_back_text replies_only_env (say "/start")
                                      client7)
                               (Some mainMenu))] |}).
Proof.
  destruct (X19_start_greets_without_reactions replies_only_env (say "/start") world7)
    as (_ & H).
  - intros h text extra. by eexists.
  - intros h. reflexivity.
  - apply (H client7). reflexivity.
Defined.



(** ** The statistics dashboard *)









